(** * Nuclear proof-of-stake consensus engine: shallow embedding

    The definitions below follow the Go sources of the consensus package
    (the engine file with [VerifyHeader], [VerifySeal], [Finalize],
    [recreateBlock], [SealHash], [processConsensusGasLimits]; [dos.go];
    [masternode.go]; the reserved-address table of the params package).

    Conventions.
    - [uint64] values are integers in [Z]; every place where Go arithmetic can
      leave the range is written with [wrap64] (or [int64] for the signed
      reinterpretation).
    - Hashes and addresses are fixed-width byte strings read as big-endian
      integers, so [common.Hash{}] and [common.Address{}] are [0].
    - A Go function that mutates its receiver or a pointer argument returns
      the new value next to its result.
    - Packages that are not part of the engine (state database, EVM, ABI
      codec, hashing, elliptic-curve checks, the PoS time/difficulty helpers)
      enter through the classes [Params], [StateAPI] and [Collaborators]. *)

From Stdlib Require Import ZArith Lia Bool String.
From stdpp Require Import base option list gmap.

Local Open Scope Z_scope.

Module Nuclear.

(** ** Machine integers *)

Definition wrap64 (x : Z) : Z := x mod 2 ^ 64.

(** Reinterpretation of the low 64 bits as a signed [int64]. *)
Definition int64 (x : Z) : Z := (x + 2 ^ 63) mod 2 ^ 64 - 2 ^ 63.

(** [Uint64] of a [big.Int]: the low 64 bits of the magnitude. *)
Definition big_Uint64 (x : Z) : Z := Z.abs x mod 2 ^ 64.

Definition Hash := Z.
Definition Address := Z.

(** [new(big.Int).SetBytes]: big-endian bytes to a non-negative integer. *)
Definition SetBytes (bs : list Byte.byte) : Z :=
  fold_left (fun acc b => acc * 256 + Z.of_N (Byte.to_N b)) bs 0.

(** ** Errors *)

Inductive error : Type :=
  (* package-level sentinels of the generic consensus package *)
  | ErrUnknownAncestor
  | ErrMissingState
  | ErrDoSThrottle
  | ErrInvalidNumber
  | ErrInvalidConsensusTx
  (* types.ErrInvalidSig *)
  | ErrInvalidSig
  (* sentinels of this package *)
  | errMissingSig
  | errInvalidSig
  | errBlacklistedCoinbase
  (* errors built in place by VerifyHeader *)
  | ErrExtraDataTooLong (have max : Z)
  | ErrInvalidMigration
  | ErrInvalidModifier (have want : Hash)
  | ErrInvalidDifficulty (have want : Z)
  | ErrGasLimitCap (have max : Z)
  | ErrInvalidGasUsed (have gasLimit : Z)
  | ErrGasLimitBound (have want limit : Z)
  | ErrGasLimitMin (have minimum : Z)
  (* an error produced by a collaborator and surfaced verbatim *)
  | ErrExternal (code : Z).

(** ** Headers, transactions, blocks *)

Record Header : Type := mkHeader {
  ParentHash : Hash;
  UncleHash : Hash;
  Coinbase : Address;
  Root : Hash;
  TxHash : Hash;
  ReceiptHash : Hash;
  Bloom : Z;
  Difficulty : Z;
  Number : Z;
  GasLimit : Z;
  GasUsed : Z;
  Time : Z;
  Extra : list Byte.byte;
  MixDigest : Hash;
  Nonce : Z;
  Signature : list Byte.byte;
}.

Definition withUncleHash (v : Hash) (h : Header) : Header :=
  mkHeader (ParentHash h) v (Coinbase h) (Root h) (TxHash h) (ReceiptHash h)
    (Bloom h) (Difficulty h) (Number h) (GasLimit h) (GasUsed h) (Time h)
    (Extra h) (MixDigest h) (Nonce h) (Signature h).

Definition withRoot (v : Hash) (h : Header) : Header :=
  mkHeader (ParentHash h) (UncleHash h) (Coinbase h) v (TxHash h) (ReceiptHash h)
    (Bloom h) (Difficulty h) (Number h) (GasLimit h) (GasUsed h) (Time h)
    (Extra h) (MixDigest h) (Nonce h) (Signature h).

Definition withGasUsed (v : Z) (h : Header) : Header :=
  mkHeader (ParentHash h) (UncleHash h) (Coinbase h) (Root h) (TxHash h) (ReceiptHash h)
    (Bloom h) (Difficulty h) (Number h) (GasLimit h) v (Time h)
    (Extra h) (MixDigest h) (Nonce h) (Signature h).

Definition withBloom (v : Z) (h : Header) : Header :=
  mkHeader (ParentHash h) (UncleHash h) (Coinbase h) (Root h) (TxHash h) (ReceiptHash h)
    v (Difficulty h) (Number h) (GasLimit h) (GasUsed h) (Time h)
    (Extra h) (MixDigest h) (Nonce h) (Signature h).

Definition withSignature (v : list Byte.byte) (h : Header) : Header :=
  mkHeader (ParentHash h) (UncleHash h) (Coinbase h) (Root h) (TxHash h) (ReceiptHash h)
    (Bloom h) (Difficulty h) (Number h) (GasLimit h) (GasUsed h) (Time h)
    (Extra h) (MixDigest h) (Nonce h) v.

(** What the engine uses of a transaction: [tx.Hash()] and
    [tx.IsConsensus()]. *)
Record Transaction : Type := mkTx {
  tx_Hash : Hash;
  IsConsensus : bool;
}.

Record Receipt : Type := mkReceipt {
  receipt_Status : Z;
  receipt_GasUsed : Z;
}.

Record Block : Type := mkBlock {
  block_Header : Header;
  Transactions : list Transaction;
  Uncles : list Header;
}.

(** [types.NewMessage(from, to, nonce, amount, gasLimit, gasPrice, data,
    checkNonce)]. *)
Record Message : Type := NewMessage {
  msg_From : Address;
  msg_To : Address;
  msg_Nonce : Z;
  msg_Amount : Z;
  msg_GasLimit : Z;
  msg_GasPrice : Z;
  msg_Data : list Byte.byte;
  msg_CheckNonce : bool;
}.

(** The EVM handle built by [createEVM]: the context derived from the message
    and the header, with the context gas limit overridden. *)
Record EVM : Type := NewEVM {
  ctx_Origin : Address;
  ctx_Header : Header;
  ctx_Author : Address;
  ctx_GasLimit : Z;
  evm_VMConfig : Z;
}.

(** ** Reserved addresses (params package) *)

Definition Nuclear_MasternodeRegistry : Address := 0x302.
Definition Nuclear_SporkRegistry : Address := 0x305.
Definition Nuclear_MigrationContract : Address := 0x308.
Definition Nuclear_MasternodeList : Address := 0x30C.
Definition Nuclear_SystemFaucet : Address := 0x320.

(** ** Chain parameters that live outside the engine *)

Class Params : Type := {
  StakeThrottle : Z;
  OldForkPeriod : Z;
  MaximumExtraDataSize : Z;
  MinGasLimit : Z;
  GasLimitBoundDivisor : Z;
  UnlimitedGas : Z;
}.

(** ** The state database and the EVM, as the engine sees them *)

Record ApplyResult : Type := mkApplyResult {
  ar_output : list Byte.byte;
  ar_gas_used : Z;
  ar_failed : bool;
  ar_err : option error;
}.

Class StateAPI : Type := {
  StateDB : Type;
  (** the committed view of a state: what the state root is computed from *)
  Content : Type;
  content : StateDB -> Content;
  Snapshot : StateDB -> nat * StateDB;
  RevertToSnapshot : nat -> StateDB -> StateDB;
  ApplyMessage : EVM -> Message -> Z -> StateDB -> ApplyResult * StateDB;
  IsBlacklisted : StateDB -> Address -> bool;
  GetCodeSize : StateDB -> Address -> Z;
  GetOrNewStateObject : Address -> StateDB -> StateDB;
  GetState : Address -> Hash -> StateDB -> Hash;
  SetState : Address -> Hash -> Hash -> StateDB -> StateDB;
  CleanupStorage : Address -> gset Hash -> StateDB -> StateDB;
  IntermediateRoot : bool -> StateDB -> Hash * StateDB;
  Prepare : Hash -> Hash -> nat -> StateDB -> StateDB;
}.

(** ** The chain reader interface *)

Record ChainReader `{StateAPI} : Type := mkChain {
  GetHeader : Hash -> Z -> option Header;
  CurrentHeader : Header;
  CalculateBlockState : Hash -> Z -> option StateDB;
  IsEIP158 : Z -> bool;
  (** the chain's own VM config, when the reader is a full block chain *)
  GetVMConfig : option Z;
}.

(** ** The engine *)

Inductive ABI : Type :=
  | IBlockRewardABI
  | IDelegatedPoSABI
  | IBlacklistRegistryABI
  | ISporkRegistryABI
  | IMasternodeRegistryV2ABI
  | ITreasuryABI.

Record KnownStakeValue : Type := mkKSV {
  block : Hash;
  ts : Z;
}.

(** [KnownStakeKey] is the pair (coinbase, parent). *)
Abbreviation KnownStakeKey := (Address * Hash)%type.

Record Nuclear : Type := mkNuclear {
  nonceCap : Z;
  rewardAbi : ABI;
  dposAbi : ABI;
  blacklistAbi : ABI;
  sporkAbi : ABI;
  mnregAbi : ABI;
  treasuryAbi : ABI;
  systemFaucet : Address;
  xferGas : Z;
  callGas : Z;
  unlimitedGas : Z;
  knownStakes : gmap KnownStakeKey KnownStakeValue;
  nextKSPurge : Z;
  (** bounded cache, most recently used entry first *)
  txhashMap : list (Hash * Hash);
}.

Definition withKnownStakes (m : gmap KnownStakeKey KnownStakeValue) (e : Nuclear) : Nuclear :=
  mkNuclear (nonceCap e) (rewardAbi e) (dposAbi e) (blacklistAbi e) (sporkAbi e)
    (mnregAbi e) (treasuryAbi e) (systemFaucet e) (xferGas e) (callGas e)
    (unlimitedGas e) m (nextKSPurge e) (txhashMap e).

Definition withNextKSPurge (v : Z) (e : Nuclear) : Nuclear :=
  mkNuclear (nonceCap e) (rewardAbi e) (dposAbi e) (blacklistAbi e) (sporkAbi e)
    (mnregAbi e) (treasuryAbi e) (systemFaucet e) (xferGas e) (callGas e)
    (unlimitedGas e) (knownStakes e) v (txhashMap e).

Definition withGas (call xfer : Z) (e : Nuclear) : Nuclear :=
  mkNuclear (nonceCap e) (rewardAbi e) (dposAbi e) (blacklistAbi e) (sporkAbi e)
    (mnregAbi e) (treasuryAbi e) (systemFaucet e) xfer call
    (unlimitedGas e) (knownStakes e) (nextKSPurge e) (txhashMap e).

Definition withTxhashMap (c : list (Hash * Hash)) (e : Nuclear) : Nuclear :=
  mkNuclear (nonceCap e) (rewardAbi e) (dposAbi e) (blacklistAbi e) (sporkAbi e)
    (mnregAbi e) (treasuryAbi e) (systemFaucet e) (xferGas e) (callGas e)
    (unlimitedGas e) (knownStakes e) (nextKSPurge e) c.

(** [New]: the engine as constructed (the ABI decoding cannot fail on the
    embedded JSON). *)
Definition New `{Params} : Nuclear :=
  {| nonceCap := 0;
     rewardAbi := IBlockRewardABI;
     dposAbi := IDelegatedPoSABI;
     blacklistAbi := IBlacklistRegistryABI;
     sporkAbi := ISporkRegistryABI;
     mnregAbi := IMasternodeRegistryV2ABI;
     treasuryAbi := ITreasuryABI;
     systemFaucet := Nuclear_SystemFaucet;
     xferGas := 0;
     callGas := 30000;
     unlimitedGas := UnlimitedGas;
     knownStakes := ∅;
     nextKSPurge := 0;
     txhashMap := [] |}.

(** ** Collaborators of the engine

    Functions of other packages, and methods of the engine whose bodies live
    in other files of the package, that the functions embedded below call. *)

Inductive RlpItem : Type :=
  | RlpHash (h : Hash)
  | RlpAddress (a : Address)
  | RlpBig (n : Z)
  | RlpUint64 (n : Z)
  | RlpBloom (b : Z)
  | RlpNonce (n : Z)
  | RlpBytes (b : list Byte.byte).

Class Collaborators `{StateAPI} : Type := {
  (** hashing and encoding *)
  HeaderHash : Header -> Hash;
  LegacyKeccak256 : list Byte.byte -> Hash;
  rlp_Encode : list RlpItem -> list Byte.byte;
  Keccak256 : list Byte.byte -> list Byte.byte;
  CalcUncleHash : list Header -> Hash;
  (** signatures *)
  ValidateSignatureValues : Byte.byte -> Z -> Z -> bool -> bool;
  Ecrecover : Hash -> list Byte.byte -> list Byte.byte + error;
  (** ABI codec *)
  Pack : ABI -> string -> list Byte.byte + error;
  UnpackAddress : ABI -> string -> list Byte.byte -> Address + error;
  UnpackGasLimits : ABI -> string -> list Byte.byte -> (Z * Z) + error;
  UnpackAddresses : ABI -> string -> list Byte.byte -> list Address + error;
  (** header predicates and PoS helpers *)
  IsGen2Migration : Header -> bool;
  TimeTarget : Type;
  calcTimeTarget : Nuclear -> ChainReader -> Header -> TimeTarget;
  checkTime : Nuclear -> Header -> TimeTarget -> option error;
  calcPoSModifier : Nuclear -> ChainReader -> Z -> Header -> Hash;
  calcPoSDifficulty : Nuclear -> ChainReader -> Z -> Header -> TimeTarget -> Z;
  verifyPoSHash : Nuclear -> ChainReader -> Header -> option error;
  VerifyForkHashes : ChainReader -> Header -> bool -> option error;
  (** finalisation steps defined in other files of the package *)
  processBlockRewards :
    Nuclear -> ChainReader -> Header -> StateDB -> list Transaction -> list Receipt ->
    list Transaction * list Receipt * option error * StateDB;
  processBlacklists :
    Nuclear -> ChainReader -> Header -> StateDB -> option error * StateDB;
  processDrainable :
    Nuclear -> ChainReader -> Header -> StateDB -> list Transaction -> list Receipt ->
    list Transaction * list Receipt * option error * StateDB;
  finalizeMigration :
    Nuclear -> ChainReader -> Header -> StateDB -> list Transaction ->
    option error * StateDB;
  (** block assembly: the header copy with the roots derived from the body *)
  NewBlockHeader : Header -> list Transaction -> list Header -> list Receipt -> Header;
  (** transaction execution used when a sealed block is rebuilt *)
  ApplyTransaction :
    ChainReader -> Z -> StateDB -> Header -> Transaction -> Z -> Z ->
    (Receipt * Z * Z * StateDB) + error;
}.

(** ** DoS guard (dos.go) *)

Section DoS.
Context `{Params} `{Collaborators}.

Definition isActive (ksv : KnownStakeValue) (now : Z) : bool :=
  wrap64 (now - ts ksv) <? StakeThrottle.

(** [sync.Map] operations used by the guard, on the map as a value. *)
Definition LoadOrStore (m : gmap KnownStakeKey KnownStakeValue)
    (k : KnownStakeKey) (v : KnownStakeValue)
  : KnownStakeValue * bool * gmap KnownStakeKey KnownStakeValue :=
  match m !! k with
  | Some actual => (actual, true, m)
  | None => (v, false, <[k := v]> m)
  end.

Definition Store (m : gmap KnownStakeKey KnownStakeValue)
    (k : KnownStakeKey) (v : KnownStakeValue) :=
  <[k := v]> m.

(** The [Range] callback deletes every entry that is not active. *)
Definition purgeInactive (now : Z) (m : gmap KnownStakeKey KnownStakeValue) :=
  filter (fun kv => isActive kv.2 now = true) m.

(** [now] gives the successive readings of the engine clock [e.now()]
    during one call: reading 0 for the old-fork threshold, reading 1 for the
    stake table. *)
Definition checkDoS (e : Nuclear) (chain : ChainReader)
    (header parent : Header) (now : nat -> Z) : option error * Nuclear :=
  let old_fork_threshold := wrap64 (now 0%nat - OldForkPeriod) in
  (* POS-8: allow old fork only if current head is not fresh enough *)
  if (Time parent <? old_fork_threshold)
     && (old_fork_threshold <? Time (CurrentHeader chain))
  then (Some ErrDoSThrottle, e)
  else
    (* POS-9: stake throttling *)
    let now := now 1%nat in
    let ksk := (Coinbase header, ParentHash header) in
    let ksv := {| block := HeaderHash header; ts := now |} in
    let '(prev_ksv, ok, stakes) := LoadOrStore (knownStakes e) ksk ksv in
    if ok && (isActive prev_ksv now && negb (block prev_ksv =? block ksv))
    then (Some ErrDoSThrottle, e)
    else
      let stakes := if ok then Store stakes ksk ksv else stakes in
      let e := withKnownStakes stakes e in
      if nextKSPurge e <? now
      then (None, withKnownStakes (purgeInactive now (knownStakes e))
                    (withNextKSPurge (wrap64 (now + StakeThrottle)) e))
      else (None, e).

End DoS.

(** ** Signing hashes *)

Section Hashes.
Context `{Collaborators}.

(** Modelled from the spec: the engine's txhash cache, "a small bounded cache
    (capacity 8) from post-seal transactions-root to pre-seal
    transactions-root", "evicted LRU".  The cache library itself is not part
    of the package; entries are kept most recently used first. *)
Definition lru_capacity : nat := 8.

Fixpoint lru_find (k : Hash) (c : list (Hash * Hash)) : option Hash :=
  match c with
  | [] => None
  | (k', v) :: c' => if k' =? k then Some v else lru_find k c'
  end.

Fixpoint lru_remove (k : Hash) (c : list (Hash * Hash)) : list (Hash * Hash) :=
  match c with
  | [] => []
  | (k', v) :: c' => if k' =? k then c' else (k', v) :: lru_remove k c'
  end.

(** [Get]: a hit moves the entry to the front. *)
Definition lru_Get (k : Hash) (c : list (Hash * Hash))
  : option Hash * list (Hash * Hash) :=
  match lru_find k c with
  | Some v => (Some v, (k, v) :: lru_remove k c)
  | None => (None, c)
  end.

(** [Add]: an existing key is refreshed, a new one may evict the oldest. *)
Definition lru_Add (k v : Hash) (c : list (Hash * Hash)) : list (Hash * Hash) :=
  match lru_find k c with
  | Some _ => (k, v) :: lru_remove k c
  | None => take lru_capacity ((k, v) :: c)
  end.

Definition SealHash (e : Nuclear) (header : Header) : Hash * Nuclear :=
  let txhash := TxHash header in
  let '(item, cache) := lru_Get txhash (txhashMap e) in
  let txhash := match item with Some v => v | None => txhash end in
  (LegacyKeccak256 (rlp_Encode [
     RlpHash (ParentHash header);
     RlpHash (UncleHash header);
     RlpHash txhash;
     RlpBig (Number header);
     RlpUint64 (GasLimit header) ]),
   withTxhashMap cache e).

Definition SignatureHash (header : Header) : Hash :=
  LegacyKeccak256 (rlp_Encode [
    RlpHash (ParentHash header);
    RlpHash (UncleHash header);
    RlpAddress (Coinbase header);
    RlpHash (Root header);
    RlpHash (TxHash header);
    RlpHash (ReceiptHash header);
    RlpBloom (Bloom header);
    RlpBig (Difficulty header);
    RlpBig (Number header);
    RlpUint64 (GasLimit header);
    RlpUint64 (GasUsed header);
    RlpUint64 (Time header);
    RlpBytes (Extra header);
    RlpHash (MixDigest header);
    RlpNonce (Nonce header) ]).

End Hashes.

(** ** Header and seal verification *)

Definition sealLen : nat := 65.

(** The sub-checks of [VerifyHeader] that the seal flag governs; the
    verification result records which were invoked, in call order. *)
Inductive Call : Type :=
  | CallVerifySeal
  | CallVerifyPoSHash
  | CallVerifyForkHashes
  | CallCheckDoS.

Record VerifyResult : Type := mkVerifyResult {
  vr_err : option error;
  vr_engine : Nuclear;
  vr_calls : list Call;
}.

Section Verification.
Context `{Params} `{Collaborators}.

Definition createEVM (e : Nuclear) (msg : Message) (chain : ChainReader)
    (header : Header) : EVM :=
  let vmc := match GetVMConfig chain with Some c => c | None => 0 end in
  (* Only From() is used by fact *)
  {| ctx_Origin := msg_From msg;
     ctx_Header := header;
     ctx_Author := Coinbase header;
     ctx_GasLimit := xferGas e;
     evm_VMConfig := vmc |}.

(** The body of [VerifySeal], state-passing: the error it returns, and the
    parent's block state as the call leaves it ([None] when the chain has no
    such state).  The state is the object [CalculateBlockState] handed out;
    [VerifySeal] works on it in place. *)
Definition verifySealState (e : Nuclear) (chain : ChainReader) (header : Header)
  : option error * option StateDB :=
  let parent_number := wrap64 (big_Uint64 (Number header) - 1) in
  match CalculateBlockState chain (ParentHash header) parent_number with
  | None => (Some ErrMissingState, None)
  | Some blockst =>
    (* DBL-8: blacklist block generation *)
    if IsBlacklisted blockst (Coinbase header)
    then (Some errBlacklistedCoinbase, Some blockst)
    else if negb (length (Signature header) =? sealLen)%nat
    then (Some errMissingSig, Some blockst)
    else
      let sighash := SignatureHash header in
      let r := SetBytes (take 32 (Signature header)) in
      let s := SetBytes (take 32 (drop 32 (Signature header))) in
      let v := nth 64 (Signature header) Byte.x00 in
      if negb (ValidateSignatureValues v r s true)
      then (Some ErrInvalidSig, Some blockst)
      else
        match Ecrecover sighash (Signature header) with
        | inr err => (Some err, Some blockst)
        | inl pubkey =>
          let addr : Address := SetBytes (drop 12 (Keccak256 (drop 1 pubkey))) in
          if negb (addr =? Coinbase header) then
            (* POS-5: Delegated PoS *)
            match GetHeader chain (ParentHash header) parent_number with
            | None => (Some ErrUnknownAncestor, Some blockst)
            | Some parent =>
              if 0 <? GetCodeSize blockst (Coinbase header) then
                match Pack (dposAbi e) "signerAddress" with
                | inr err => (Some err, Some blockst)
                | inl signerData =>
                  let msg :=
                    NewMessage (systemFaucet e) (Coinbase header) 0 0
                      (callGas e) 0 signerData false in
                  let '(rev_id, st) := Snapshot blockst in
                  let evm := createEVM e msg chain parent in
                  let gp := callGas e in
                  let '(res, st) := ApplyMessage evm msg gp st in
                  let st := RevertToSnapshot rev_id st in
                  match ar_err res with
                  | Some err => (Some err, Some st)
                  | None =>
                    match UnpackAddress (dposAbi e) "signerAddress" (ar_output res) with
                    | inr err => (Some err, Some st)
                    | inl signer =>
                      if signer =? addr then (None, Some st)
                      else (Some errInvalidSig, Some st)
                    end
                  end
                end
              else (Some errInvalidSig, Some blockst)
            end
          else (None, Some blockst)
        end
  end.

Definition VerifySeal (e : Nuclear) (chain : ChainReader) (header : Header)
  : option error :=
  (verifySealState e chain header).1.

(** [now] is handed on to [checkDoS]. *)
Definition VerifyHeader (e : Nuclear) (chain : ChainReader) (header : Header)
    (seal : bool) (now : nat -> Z) : VerifyResult :=
  let ret err calls := mkVerifyResult err e calls in
  let is_migration := IsGen2Migration header in
  (* Ensure that the header's extra-data section is of a reasonable size *)
  if (MaximumExtraDataSize <? Z.of_nat (length (Extra header))) && negb is_migration
  then ret (Some (ErrExtraDataTooLong (Z.of_nat (length (Extra header)))
                    MaximumExtraDataSize)) []
  (* A special Migration block #1 *)
  else if is_migration && negb (Coinbase header =? Nuclear_MigrationContract)
  then ret (Some ErrInvalidMigration) []
  else
  match GetHeader chain (ParentHash header) (wrap64 (big_Uint64 (Number header) - 1)) with
  | None =>
    if negb (Number header =? 0) then ret (Some ErrUnknownAncestor) []
    else ret None []
  | Some parent =>
    let time_target := calcTimeTarget e chain parent in
    match checkTime e header time_target with
    | Some err => ret (Some err) []
    | None =>
    let modifier := calcPoSModifier e chain (Time header) parent in
    if negb (MixDigest header =? modifier)
    then ret (Some (ErrInvalidModifier (MixDigest header) modifier)) []
    else
    let difficulty := calcPoSDifficulty e chain (Time header) parent time_target in
    if negb (Difficulty header =? difficulty)
    then ret (Some (ErrInvalidDifficulty (Difficulty header) difficulty)) []
    else
    let cap := 0x7fffffffffffffff in
    if cap <? GasLimit header
    then ret (Some (ErrGasLimitCap (GasLimit header) cap)) []
    (* Verify that the gasUsed is <= gasLimit, except for migration *)
    else if (GasLimit header <? GasUsed header) && negb is_migration
    then ret (Some (ErrInvalidGasUsed (GasUsed header) (GasLimit header))) []
    else
    (* Verify that the gas limit remains within allowed bounds *)
    let diff := int64 (int64 (GasLimit parent) - int64 (GasLimit header)) in
    let diff := if diff <? 0 then int64 (diff * -1) else diff in
    let limit := GasLimit parent / GasLimitBoundDivisor in
    if (limit <=? wrap64 diff) && negb is_migration && negb (IsGen2Migration parent)
    then ret (Some (ErrGasLimitBound (GasLimit header) (GasLimit parent) limit)) []
    else if GasLimit header <? MinGasLimit
    then ret (Some (ErrGasLimitMin (GasLimit header) MinGasLimit)) []
    (* Verify that the block number is parent's +1 *)
    else if negb (Number header - Number parent =? 1)
    then ret (Some ErrInvalidNumber) []
    else
    (* We skip checks only where full previous maturity period state is required. *)
    let '(err, calls) :=
      if seal then
        match VerifySeal e chain header with
        | Some err => (Some err, [CallVerifySeal])
        | None =>
          (verifyPoSHash e chain header, [CallVerifySeal; CallVerifyPoSHash])
        end
      else (None, []) in
    match err with
    | Some err => ret (Some err) calls
    | None =>
    let calls := calls ++ [CallVerifyForkHashes] in
    match VerifyForkHashes chain header false with
    | Some err => ret (Some err) calls
    | None =>
    (* DoS protection *)
    if seal && bool_decide (GetHeader chain (HeaderHash header)
                              (big_Uint64 (Number header)) = None)
    then
      let '(err, e') := checkDoS e chain header parent now in
      mkVerifyResult err e' (calls ++ [CallCheckDoS])
    else ret None calls
    end
    end
    end
  end.

End Verification.

(** ** Finalisation *)

(** A Go call either returns or panics (nil dereference, slice bounds). *)
Inductive Outcome (A : Type) : Type :=
  | Done (a : A)
  | Panic.
Arguments Done {A} a.
Arguments Panic {A}.

(** What [finalize] and [Finalize] hand back: the returned triple, and the
    engine, header and state as the call left them. *)
Record Finalized `{StateAPI} : Type := mkFinalized {
  f_block : option Block;
  f_receipts : list Receipt;
  f_err : option error;
  f_engine : Nuclear;
  f_header : Header;
  f_state : option StateDB;
}.

Record SealResult `{StateAPI} : Type := NewSealResult {
  sr_Block : option Block;
  sr_State : option StateDB;
  sr_Receipts : list Receipt;
}.
Arguments NewSealResult {_} _ _ _.

(** The return statements of [recreateBlock]. *)
Inductive ReturnSite : Type :=
  | AtAncestorCheck
  | AtApplyTransaction
  | AtEnd.

Record Recreated `{StateAPI} : Type := mkRecreated {
  rc_result : option SealResult;
  rc_err : option error;
  rc_site : ReturnSite;
  rc_engine : Nuclear;
  rc_header : Header;
}.

Section Finalisation.
Context `{Params} `{Collaborators}.

Definition uncleHash : Hash := CalcUncleHash [].

Definition NewBlock (header : Header) (txs : list Transaction)
    (uncles : list Header) (receipts : list Receipt) : Block :=
  {| block_Header := NewBlockHeader header txs uncles receipts;
     Transactions := txs;
     Uncles := uncles |}.

Definition processConsensusGasLimits (e : Nuclear) (chain : ChainReader)
    (header : Header) (state : StateDB) : option error * Nuclear * StateDB :=
  match Pack (sporkAbi e) "consensusGasLimits" with
  | inr err => (Some err, e, state)
  | inl callData =>
    (* consensusGasLimits() *)
    let msg :=
      NewMessage (systemFaucet e) Nuclear_SporkRegistry 0 0 (callGas e) 0
        callData false in
    let '(rev_id, state) := Snapshot state in
    let evm := createEVM e msg chain header in
    let gp := callGas e in
    let '(res, state) := ApplyMessage evm msg gp state in
    let state := RevertToSnapshot rev_id state in
    match ar_err res with
    | Some err => (Some err, e, state)
    | None =>
      match UnpackGasLimits (sporkAbi e) "consensusGasLimits" (ar_output res) with
      | inr err => (Some err, e, state)
      | inl (CallGas, XferGas) =>
        (None, withGas (big_Uint64 CallGas) (big_Uint64 XferGas) e, state)
      end
    end
  end.

(** The loop of [processMasternodes] over the enumerated addresses: each
    address slot is set and remembered in [keep]. *)
Fixpoint storeMasternodes (masternodes : list Address) (value : Hash)
    (keep : gset Hash) (statedb : StateDB) : gset Hash * StateDB :=
  match masternodes with
  | [] => (keep, statedb)
  | addr :: rest =>
    let addr_hash : Hash := addr in
    (* the GetState read before the write only feeds a debug log *)
    let statedb := SetState Nuclear_MasternodeList addr_hash value statedb in
    storeMasternodes rest value ({[addr_hash]} ∪ keep) statedb
  end.

Definition processMasternodes (e : Nuclear) (chain : ChainReader)
    (header : Header) (statedb : StateDB) : option error * StateDB :=
  let mnregistry := Nuclear_MasternodeRegistry in
  match Pack (mnregAbi e) "enumerateActive" with
  | inr err => (Some err, statedb)
  | inl enumerateData =>
    let msg :=
      NewMessage mnregistry mnregistry 0 0 (unlimitedGas e) 0 enumerateData false in
    let '(rev_id, statedb) := Snapshot statedb in
    let evm := createEVM e msg chain header in
    let gp := unlimitedGas e in
    let '(res, statedb) := ApplyMessage evm msg gp statedb in
    let statedb := RevertToSnapshot rev_id statedb in
    match ar_err res with
    | Some err => (Some err, statedb)
    | None =>
      match UnpackAddresses (mnregAbi e) "enumerateActive" (ar_output res) with
      | inr err => (Some err, statedb)
      | inl masternodes =>
        let statedb := GetOrNewStateObject Nuclear_MasternodeList statedb in
        let value : Hash := 1 in
        let '(keep, statedb) := storeMasternodes masternodes value ∅ statedb in
        (None, CleanupStorage Nuclear_MasternodeList keep statedb)
      end
    end
  end.

Definition govFinalize (e : Nuclear) (chain : ChainReader) (header : Header)
    (state : StateDB) (txs : list Transaction) (receipts : list Receipt)
  : list Transaction * list Receipt * option error * Nuclear * Header * StateDB :=
  let '(err, e, state) := processConsensusGasLimits e chain header state in
  let '(txs, receipts, err, state) :=
    match err with
    | None => processBlockRewards e chain header state txs receipts
    | Some _ => (txs, receipts, err, state)
    end in
  let '(err, state) :=
    match err with
    | None => processMasternodes e chain header state
    | Some _ => (err, state)
    end in
  let '(err, state) :=
    match err with
    | None => processBlacklists e chain header state
    | Some _ => (err, state)
    end in
  let '(txs, receipts, err, state) :=
    match err with
    | None => processDrainable e chain header state txs receipts
    | Some _ => (txs, receipts, err, state)
    end in
  let '(err, state) :=
    match err with
    | None => finalizeMigration e chain header state txs
    | Some _ => (err, state)
    end in
  let '(root, state) := IntermediateRoot (IsEIP158 chain (Number header)) state in
  (txs, receipts, err, e, withRoot root header, state).

(** [state] is a pointer: [None] is the nil state, which the governance steps
    dereference. *)
Definition finalize (e : Nuclear) (chain : ChainReader) (header : Header)
    (state : option StateDB) (txs : list Transaction) (receipts : list Receipt)
  : Outcome Finalized :=
  (* Do not finalize too early in mining *)
  if negb (Coinbase header =? 0) then
    match state with
    | None => Panic
    | Some st =>
      let '(txs, receipts, err, e, header, st) :=
        govFinalize e chain header st txs receipts in
      let header := withUncleHash uncleHash header in
      Done {| f_block := Some (NewBlock header txs [] receipts);
              f_receipts := receipts;
              f_err := err;
              f_engine := e;
              f_header := header;
              f_state := Some st |}
    end
  else
    let header := withUncleHash uncleHash header in
    Done {| f_block := Some (NewBlock header txs [] receipts);
            f_receipts := receipts;
            f_err := None;
            f_engine := e;
            f_header := header;
            f_state := state |}.

(** The tail scan of [Finalize]: [n] is the loop index plus one.  The result
    is the pair (remaining prefix, expected consensus transactions). *)
Fixpoint splitConsensus (txs : list Transaction) (n : nat)
  : list Transaction * list Transaction :=
  match n with
  | O => (txs, [])
  | S i =>
    match txs !! i with
    | Some tx =>
      if negb (IsConsensus tx) then (take (S i) txs, drop (S i) txs)
      else match i with
           | O => (take 0 txs, txs)
           | S _ => splitConsensus txs i
           end
    | None => (txs, [])
    end
  end.

(** The comparison loop of [Finalize] over [ntxs], indexing into [ctxs];
    [true] when some position has different hashes. *)
Fixpoint hashMismatch (ntxs ctxs : list Transaction) : bool :=
  match ntxs, ctxs with
  | tx :: ntxs', ctx :: ctxs' =>
    if negb (tx_Hash tx =? tx_Hash ctx) then true else hashMismatch ntxs' ctxs'
  | _, _ => false
  end.

(** Slices are modelled by their contents: the finalisation steps defined in
    other files are taken to hand back their lists without writing into the
    array behind the caller's [txs].  Slicing the block's transactions past
    the prefix panics when the block holds fewer. *)
Definition Finalize (e : Nuclear) (chain : ChainReader) (header : Header)
    (state : option StateDB) (txs : list Transaction) (uncles : list Header)
    (receipts : list Receipt) : Outcome Finalized :=
  let '(txs, ctxs) := splitConsensus txs (length txs) in
  match finalize e chain header state txs receipts with
  | Panic => Panic
  | Done r =>
    let failed err :=
      Done {| f_block := None; f_receipts := []; f_err := Some err;
              f_engine := f_engine r; f_header := f_header r;
              f_state := f_state r |} in
    match f_err r with
    | Some err => failed err
    | None =>
      let all := match f_block r with Some b => Transactions b | None => [] end in
      if (length all <? length txs)%nat then Panic
      else
        let ntxs := drop (length txs) all in
        if negb (length ntxs =? length ctxs)%nat then failed ErrInvalidConsensusTx
        else if hashMismatch ntxs ctxs then failed ErrInvalidConsensusTx
        else Done r
    end
  end.

(** The transaction loop of [recreateBlock]; [i] is the index handed to
    [Prepare].  [inl] carries the error of the first failing transaction. *)
Fixpoint applyTransactions (chain : ChainReader) (header : Header)
    (txs : list Transaction) (i : nat) (gp usedGas : Z) (blstate : StateDB)
    (receipts : list Receipt) : error + (list Receipt * Z * StateDB) :=
  match txs with
  | [] => inr (receipts, usedGas, blstate)
  | tx :: rest =>
    let blstate := Prepare (tx_Hash tx) 0 i blstate in
    match ApplyTransaction chain gp blstate header tx usedGas
            (match GetVMConfig chain with Some c => c | None => 0 end) with
    | inr err => inl err
    | inl (receipt, gp, usedGas, blstate) =>
      applyTransactions chain header rest (S i) gp usedGas blstate
        (receipts ++ [receipt])
    end
  end.

Definition recreateBlock (e : Nuclear) (chain : ChainReader) (header : Header)
    (txs : list Transaction) : Outcome Recreated :=
  (* named results: result = nil, err = nil *)
  let err : option error := None in
  let usedGas := 0 in
  let gp := GasLimit header in
  let blstate :=
    CalculateBlockState chain (ParentHash header)
      (wrap64 (big_Uint64 (Number header) - 1)) in
  if bool_decide (err <> None) then
    Done {| rc_result := None; rc_err := Some ErrUnknownAncestor;
            rc_site := AtAncestorCheck; rc_engine := e; rc_header := header |}
  else
    let receipts : list Receipt := [] in
    let looped :=
      match txs, blstate with
      | [], _ => Done (inr (receipts, usedGas, blstate))
      | _ :: _, None => Panic
      | _ :: _, Some st =>
        match applyTransactions chain header txs 0 gp usedGas st receipts with
        | inl err => Done (inl err)
        | inr (receipts, usedGas, st) => Done (inr (receipts, usedGas, Some st))
        end
      end in
    match looped with
    | Panic => Panic
    | Done (inl err) =>
      Done {| rc_result := None; rc_err := Some err;
              rc_site := AtApplyTransaction; rc_engine := e; rc_header := header |}
    | Done (inr (receipts, usedGas, blstate)) =>
      let header := withGasUsed usedGas header in
      let header := withBloom 0 header in
      match finalize e chain header blstate txs receipts with
      | Panic => Panic
      | Done r =>
        Done {| rc_result := Some (NewSealResult (f_block r) (f_state r) (f_receipts r));
                rc_err := f_err r;
                rc_site := AtEnd;
                rc_engine := f_engine r;
                rc_header := f_header r |}
      end
    end.

End Finalisation.

(** ** The resolved transactions root of [SealHash]

    The value [SealHash] puts in third position: the cached pre-injection
    root when the header's transactions root has a cache entry, the header's
    own root otherwise. *)
Definition sealTxHash (e : Nuclear) (header : Header) : Hash :=
  match lru_find (TxHash header) (txhashMap e) with
  | Some v => v
  | None => TxHash header
  end.

(** Two lists differ "in length or in the hash of some position". *)
Definition consensusTxsDiffer (ntxs ctxs : list Transaction) : Prop :=
  length ntxs <> length ctxs
  \/ exists i tx ctx,
       ntxs !! i = Some tx /\ ctxs !! i = Some ctx /\ tx_Hash tx <> tx_Hash ctx.

(** What [Finalize] returns when it rejects with [err]: no block, no
    receipts, and the engine, header and state as finalisation left them. *)
Definition rejected `{StateAPI} (r : Finalized) (err : error) : Finalized :=
  {| f_block := None; f_receipts := []; f_err := Some err;
     f_engine := f_engine r; f_header := f_header r; f_state := f_state r |}.

(** ** The seal stage of [VerifyHeader], in words

    The sub-checks a header goes through once the checks that need no seal
    have passed: with [seal], the seal, then the PoS hash, then the fork
    hashes, then (for a header not yet in the canonical store) the DoS guard,
    each only after the previous one succeeded; without [seal], the fork
    hashes alone. *)
Section SealStage.
Context `{Params} `{Collaborators}.

Definition sealStageCalls (e : Nuclear) (chain : ChainReader) (header : Header)
    (seal : bool) : list Call :=
  if seal then
    match VerifySeal e chain header with
    | Some _ => [CallVerifySeal]
    | None =>
      match verifyPoSHash e chain header with
      | Some _ => [CallVerifySeal; CallVerifyPoSHash]
      | None =>
        match VerifyForkHashes chain header false with
        | Some _ => [CallVerifySeal; CallVerifyPoSHash; CallVerifyForkHashes]
        | None =>
          match GetHeader chain (HeaderHash header) (big_Uint64 (Number header)) with
          | Some _ => [CallVerifySeal; CallVerifyPoSHash; CallVerifyForkHashes]
          | None =>
            [CallVerifySeal; CallVerifyPoSHash; CallVerifyForkHashes; CallCheckDoS]
          end
        end
      end
    end
  else [CallVerifyForkHashes].

End SealStage.

(** ** Contract of the snapshot mechanism

    What the engine relies on when it brackets a contract call: reverting to
    the identifier that [Snapshot] returned undoes whatever the EVM did to
    the state in between. *)
Definition RevertRestores `{StateAPI} : Prop :=
  forall (st : StateDB) (evm : EVM) (msg : Message) (gp : Z),
    content (RevertToSnapshot (Snapshot st).1
               (ApplyMessage evm msg gp (Snapshot st).2).2)
    = content st.

(** * A concrete chain to run the engine on

    A small journaled state database, a scripted EVM and simple stand-ins for
    the remaining collaborators; the worked examples below evaluate the
    engine on them. *)

Definition byte_of_Z (x : Z) : Byte.byte :=
  match Byte.of_N (Z.to_N (x mod 256)) with
  | Some b => b
  | None => Byte.x00
  end.

Fixpoint be_bytes (width : nat) (x : Z) : list Byte.byte :=
  match width with
  | O => []
  | S w => be_bytes w (x / 256) ++ [byte_of_Z x]
  end.

Definition demo_params : Params :=
  {| StakeThrottle := 60;
     OldForkPeriod := 900;
     MaximumExtraDataSize := 32;
     MinGasLimit := 5000;
     GasLimitBoundDivisor := 1024;
     UnlimitedGas := 2 ^ 40 |}.

(** Storage slots as a list of (account, slot, value) entries, with a stack
    of saved copies: a snapshot identifier is the depth of the stack when it
    was taken. *)
Definition Slots := list (Address * Hash * Hash).

Record JState : Type := mkJState {
  js_store : Slots;
  js_journal : list Slots;
}.

Definition slot_is (a : Address) (k : Hash) (entry : Address * Hash * Hash) : bool :=
  (entry.1.1 =? a) && (entry.1.2 =? k).

Definition slot_lookup (a : Address) (k : Hash) (s : Slots) : option Hash :=
  match List.find (slot_is a k) s with
  | Some entry => Some entry.2
  | None => None
  end.

Definition slot_store (a : Address) (k v : Hash) (s : Slots) : Slots :=
  (a, k, v) :: List.filter (fun entry => negb (slot_is a k entry)) s.

Definition demo_blacklist_account : Address := 0x30A.

(** [script] gives the result of a call by callee address.  Every call also
    dirties a slot of the callee and leaves a nested snapshot behind. *)
Definition demo_state (script : Address -> ApplyResult) : StateAPI :=
  {| StateDB := JState;
     Content := Slots;
     content := js_store;
     Snapshot := fun s =>
       (length (js_journal s), mkJState (js_store s) (js_journal s ++ [js_store s]));
     RevertToSnapshot := fun id s =>
       match js_journal s !! id with
       | Some saved => mkJState saved (take id (js_journal s))
       | None => s
       end;
     ApplyMessage := fun evm msg gp s =>
       (script (msg_To msg),
        mkJState (slot_store (msg_To msg) 0 gp (js_store s))
                 (js_journal s ++ [js_store s]));
     IsBlacklisted := fun s a =>
       bool_decide (slot_lookup demo_blacklist_account a (js_store s) = Some 1);
     GetCodeSize := fun s a => default 0 (slot_lookup a (-1) (js_store s));
     GetOrNewStateObject := fun a s => s;
     GetState := fun a k s => default 0 (slot_lookup a k (js_store s));
     SetState := fun a k v s => mkJState (slot_store a k v (js_store s)) (js_journal s);
     CleanupStorage := fun a keep s =>
       mkJState (List.filter (fun entry =>
                   negb (entry.1.1 =? a) || bool_decide (entry.1.2 ∈ keep))
                   (js_store s))
                (js_journal s);
     IntermediateRoot := fun _ s =>
       (fold_left (fun acc entry => acc + entry.1.1 + entry.1.2 + entry.2)
          (js_store s) 0,
        mkJState (js_store s) []);
     Prepare := fun _ _ _ s => s |}.

Definition demo_ok (output : list Byte.byte) : ApplyResult :=
  {| ar_output := output; ar_gas_used := 21000; ar_failed := false; ar_err := None |}.

Definition demo_evm_error (code : Z) : ApplyResult :=
  {| ar_output := []; ar_gas_used := 0; ar_failed := true;
     ar_err := Some (ErrExternal code) |}.

(** The order of the secp256k1 group and its half. *)
Definition secp256k1N : Z :=
  0xFFFFFFFFFFFFFFFFFFFFFFFFFFFFFFFEBAAEDCE6AF48A03BBFD25E8CD0364141.
Definition secp256k1halfN : Z := secp256k1N / 2.

Definition demo_migration (h : Header) : bool := Number h =? 1.

(** [fork] is the fork-hash check, [rewards] what the block-reward step
    appends.  Every transaction applies for 21000 gas, except that a
    transaction with hash 666 is refused. *)
Definition demo_collab (SA : StateAPI) (fork : Header -> option error)
    (rewards : list Transaction) : @Collaborators SA :=
  {| HeaderHash := fun h => Root h * 65536 + Nonce h;
     LegacyKeccak256 := fun bs => SetBytes bs mod 2 ^ 256;
     rlp_Encode := fun items =>
       flat_map (fun it =>
         match it with
         | RlpHash h => be_bytes 32 h
         | RlpAddress a => be_bytes 20 a
         | RlpBig n => be_bytes 8 n
         | RlpUint64 n => be_bytes 8 n
         | RlpBloom b => be_bytes 8 b
         | RlpNonce n => be_bytes 8 n
         | RlpBytes b => b
         end) items;
     Keccak256 := fun bs => repeat Byte.x00 12 ++ take 20 (bs ++ repeat Byte.x00 20);
     CalcUncleHash := fun us => 0x1dcc4de8 + Z.of_nat (length us);
     ValidateSignatureValues := fun v r s homestead =>
       if (r <? 1) || (s <? 1) then false
       else if homestead && (secp256k1halfN <? s) then false
       else (r <? secp256k1N) && (s <? secp256k1N)
            && ((Byte.to_N v =? 0)%N || (Byte.to_N v =? 1)%N);
     Ecrecover := fun _ sig => inl (Byte.x04 :: take 64 sig);
     Pack := fun _ _ => inl [Byte.x01];
     UnpackAddress := fun _ _ out =>
       match out with [] => inr (ErrExternal 2) | _ => inl (SetBytes out) end;
     UnpackGasLimits := fun _ _ out =>
       if (length out =? 64)%nat
       then inl (SetBytes (take 32 out), SetBytes (drop 32 out))
       else inr (ErrExternal 3);
     UnpackAddresses := fun _ _ out =>
       inl (map (fun b => Z.of_N (Byte.to_N b)) out);
     IsGen2Migration := demo_migration;
     TimeTarget := (Z * Z)%type;
     calcTimeTarget := fun _ _ parent => (Time parent + 30, Time parent + 3600);
     checkTime := fun _ h tt =>
       if (tt.1 <=? Time h) && (Time h <=? tt.2) then None else Some (ErrExternal 10);
     calcPoSModifier := fun _ _ t parent => MixDigest parent + t;
     calcPoSDifficulty := fun _ _ _ parent _ => Difficulty parent;
     verifyPoSHash := fun _ _ _ => None;
     VerifyForkHashes := fun _ h _ => fork h;
     processBlockRewards := fun _ _ _ st txs receipts =>
       (txs ++ rewards, receipts ++ map (fun _ => mkReceipt 1 0) rewards, None, st);
     processBlacklists := fun _ _ _ st => (None, st);
     processDrainable := fun _ _ _ st txs receipts => (txs, receipts, None, st);
     finalizeMigration := fun _ _ _ st _ => (None, st);
     NewBlockHeader := fun h _ _ _ => h;
     ApplyTransaction := fun _ gp st _ tx usedGas _ =>
       if tx_Hash tx =? 666 then inr (ErrExternal 66)
       else inl (mkReceipt 1 21000, gp - 21000, usedGas + 21000, st) |}.

Definition demo_header (parent : Hash) (coinbase : Address) (root : Hash)
    (number gasLimit time : Z) (mix : Hash) (sig : list Byte.byte) : Header :=
  {| ParentHash := parent; UncleHash := 0; Coinbase := coinbase; Root := root;
     TxHash := 0; ReceiptHash := 0; Bloom := 0; Difficulty := 1;
     Number := number; GasLimit := gasLimit; GasUsed := 0; Time := time;
     Extra := []; MixDigest := mix; Nonce := 0; Signature := sig |}.

Definition demo_empty_state : JState := mkJState [] [].

(** A reader over a list of canonical headers, found by (hash, number) with
    the hash function of [demo_collab]. *)
Definition demo_chain (SA : StateAPI) (canon : list Header) (head : Header)
    (st : option (@StateDB SA)) : @ChainReader SA :=
  {| GetHeader := fun hash number =>
       find (fun h => (Root h * 65536 + Nonce h =? hash) && (Number h =? number)) canon;
     CurrentHeader := head;
     CalculateBlockState := fun _ _ => st;
     IsEIP158 := fun _ => true;
     GetVMConfig := None |}.

(** The plain world: every contract call succeeds with an empty output, the
    fork-hash check passes, no reward transaction is synthesised. *)
Definition demo_plain_state : StateAPI := demo_state (fun _ => demo_ok []).
Definition demo_plain_collab : @Collaborators demo_plain_state :=
  demo_collab demo_plain_state (fun _ => None) [].

(** Two competing headers of one proposer on one parent. *)
Definition demo_stake_1 : Header := demo_header 77 0xAA 1 5 8000000 1000 0 [].
Definition demo_stake_2 : Header := demo_header 77 0xAA 2 5 8000000 1000 0 [].
Definition demo_stake_parent : Header := demo_header 76 0xBB 9 4 8000000 940 0 [].
Definition demo_stake_chain : @ChainReader demo_plain_state :=
  demo_chain demo_plain_state [] demo_stake_parent None.

(** The engine after it has seen [demo_stake_1] at time 1000. *)
Definition demo_stake_engine : Nuclear :=
  withKnownStakes {[ (0xAA, 77) := {| block := 65536; ts := 1000 |} ]}
    (@New demo_params).

(** A sealed header whose transactions root (500) the engine maps back to
    the root (400) of the work item it was sealed from. *)
Definition demo_sealed : Header :=
  {| ParentHash := 77; UncleHash := 5; Coinbase := 0xAA; Root := 8;
     TxHash := 500; ReceiptHash := 3; Bloom := 1; Difficulty := 9;
     Number := 5; GasLimit := 8000000; GasUsed := 42000; Time := 1060;
     Extra := []; MixDigest := 6; Nonce := 11; Signature := [Byte.x01] |}.

Definition demo_unsealed : Header :=
  {| ParentHash := 77; UncleHash := 5; Coinbase := 0; Root := 0;
     TxHash := 400; ReceiptHash := 0; Bloom := 0; Difficulty := 0;
     Number := 5; GasLimit := 8000000; GasUsed := 0; Time := 1000;
     Extra := []; MixDigest := 0; Nonce := 0; Signature := [] |}.

Definition demo_seal_engine : Nuclear :=
  withTxhashMap (lru_Add 500 400 (lru_Add 300 200 [])) (@New demo_params).

(** Chains for seal verification: without parent state, with a state that
    blacklists the proposer 0xAA, and with a clean state. *)
Definition demo_blacklisting_state : JState :=
  mkJState [(demo_blacklist_account, 0xAA, 1)] [].

Definition demo_chain_no_state : @ChainReader demo_plain_state :=
  demo_chain demo_plain_state [] demo_stake_parent None.
Definition demo_chain_blacklisting : @ChainReader demo_plain_state :=
  demo_chain demo_plain_state [] demo_stake_parent (Some demo_blacklisting_state).
Definition demo_chain_clean : @ChainReader demo_plain_state :=
  demo_chain demo_plain_state [] demo_stake_parent (Some demo_empty_state).

Definition demo_signed (sig : list Byte.byte) : Header :=
  demo_header 77 0xAA 1 5 8000000 1000 0 sig.

(** A world in which the governance steps are visible: the block-reward
    step appends a consensus transaction. *)
Definition demo_reward_tx : Transaction := {| tx_Hash := 9001; IsConsensus := true |}.
Definition demo_user_tx : Transaction := {| tx_Hash := 17; IsConsensus := false |}.

(** The spork registry answers with 64 bytes: call gas 15, transfer gas 30. *)
Definition demo_gas_limits_output : list Byte.byte := be_bytes 32 15 ++ be_bytes 32 30.

Definition demo_rewarding_state : StateAPI :=
  demo_state (fun callee =>
    if callee =? Nuclear_SporkRegistry then demo_ok demo_gas_limits_output
    else demo_ok [Byte.x07; Byte.x09]).
Definition demo_rewarding_collab : @Collaborators demo_rewarding_state :=
  demo_collab demo_rewarding_state (fun _ => None) [demo_reward_tx].
Definition demo_rewarding_chain : @ChainReader demo_rewarding_state :=
  demo_chain demo_rewarding_state [] demo_stake_parent None.

(** A header that is still being mined: no coinbase yet. *)
Definition demo_mining : Header := demo_header 77 0 1 5 8000000 1000 0 [].

(** A state with a foreign slot and a stale masternode slot (address 3). *)
Definition demo_governed_state : JState :=
  mkJState [(0x55, 1, 2); (Nuclear_MasternodeList, 3, 1)] [].

Definition demo_validator : Header := demo_header 77 0xAA 1 5 8000000 1000 0 [].

(** A world whose spork registry call fails inside the EVM. *)
Definition demo_failing_state : StateAPI :=
  demo_state (fun callee =>
    if callee =? Nuclear_SporkRegistry then demo_evm_error 5 else demo_ok []).
Definition demo_failing_collab : @Collaborators demo_failing_state :=
  demo_collab demo_failing_state (fun _ => None) [].
Definition demo_failing_chain : @ChainReader demo_failing_state :=
  demo_chain demo_failing_state [] demo_stake_parent None.

Definition demo_forged_tx : Transaction := {| tx_Hash := 9002; IsConsensus := true |}.

(** What finalisation of the single user transaction yields in the rewarding
    world (evaluated once). *)
Definition demo_finalized : @Finalized demo_rewarding_state :=
  Eval vm_compute in
    match @finalize _ demo_rewarding_collab (@New demo_params) demo_rewarding_chain
            demo_validator (Some demo_governed_state) [demo_user_tx] [] with
    | Done r => r
    | Panic =>
      {| f_block := None; f_receipts := []; f_err := None;
         f_engine := @New demo_params; f_header := demo_validator;
         f_state := None |}
    end.

(** Headers for [VerifyHeader]: a canonical block 4 and a well-formed child;
    the migration block 1 and a child whose gas limit is five times its
    parent's. *)
Definition demo_block_4 : Header := demo_header 75 0xBB 9 4 8000000 940 0 [].
Definition demo_block_5 : Header := demo_header 589824 0xAA 1 5 8000000 1000 1000 [].
Definition demo_block_1 : Header := demo_header 75 0xBB 9 1 8000000 940 0 [].
Definition demo_block_2 : Header := demo_header 589824 0xAA 1 2 40000000 1000 1000 [].

Definition demo_chain_4 : @ChainReader demo_plain_state :=
  demo_chain demo_plain_state [demo_block_4] demo_block_4 (Some demo_empty_state).
Definition demo_chain_1 : @ChainReader demo_plain_state :=
  demo_chain demo_plain_state [demo_block_1] demo_block_1 (Some demo_empty_state).

(** A world whose fork-hash check rejects block 5. *)
Definition demo_forked_collab : @Collaborators demo_plain_state :=
  demo_collab demo_plain_state
    (fun h => if Number h =? 5 then Some (ErrExternal 77) else None) [].

(** Block 5 with a gas limit one million above its parent's. *)
Definition demo_block_5_wide : Header :=
  demo_header 589824 0xAA 1 5 9000000 1000 1000 [].

(** Block 5 carrying a signature that the demo curve stand-ins accept for
    proposer 0xAA: r = 0xAA * 256^12, s = 1, v = 0. *)
Definition demo_signature : list Byte.byte :=
  repeat Byte.x00 19 ++ [Byte.xaa] ++ repeat Byte.x00 43 ++ [Byte.x01; Byte.x00].
Definition demo_block_5_signed : Header :=
  demo_header 589824 0xAA 1 5 8000000 1000 1000 demo_signature.

(** A world for delegated sealing: the proposer 0xCC is a contract (code
    size 100) whose [signerAddress()] answers 0xAA, the key that signed
    [demo_signature]. *)
Definition demo_delegating_state : StateAPI := demo_state (fun _ => demo_ok [Byte.xaa]).
Definition demo_delegating_collab : @Collaborators demo_delegating_state :=
  demo_collab demo_delegating_state (fun _ => None) [].
Definition demo_delegate_code : JState := mkJState [(0xCC, -1, 100)] [].
Definition demo_delegating_chain : @ChainReader demo_delegating_state :=
  demo_chain demo_delegating_state [demo_block_4] demo_block_4
    (Some demo_delegate_code).
Definition demo_block_5_delegated : Header :=
  demo_header 589824 0xCC 1 5 8000000 1000 1000 demo_signature.

(** * Further entry points of the engine *)

Definition withCoinbase (v : Address) (h : Header) : Header :=
  mkHeader (ParentHash h) (UncleHash h) v (Root h) (TxHash h) (ReceiptHash h)
    (Bloom h) (Difficulty h) (Number h) (GasLimit h) (GasUsed h) (Time h)
    (Extra h) (MixDigest h) (Nonce h) (Signature h).

Definition withNonce (v : Z) (h : Header) : Header :=
  mkHeader (ParentHash h) (UncleHash h) (Coinbase h) (Root h) (TxHash h) (ReceiptHash h)
    (Bloom h) (Difficulty h) (Number h) (GasLimit h) (GasUsed h) (Time h)
    (Extra h) (MixDigest h) v (Signature h).

Definition withTime (v : Z) (h : Header) : Header :=
  mkHeader (ParentHash h) (UncleHash h) (Coinbase h) (Root h) (TxHash h) (ReceiptHash h)
    (Bloom h) (Difficulty h) (Number h) (GasLimit h) (GasUsed h) v
    (Extra h) (MixDigest h) (Nonce h) (Signature h).

Definition withMixDigest (v : Hash) (h : Header) : Header :=
  mkHeader (ParentHash h) (UncleHash h) (Coinbase h) (Root h) (TxHash h) (ReceiptHash h)
    (Bloom h) (Difficulty h) (Number h) (GasLimit h) (GasUsed h) (Time h)
    (Extra h) v (Nonce h) (Signature h).

Definition withDifficulty (v : Z) (h : Header) : Header :=
  mkHeader (ParentHash h) (UncleHash h) (Coinbase h) (Root h) (TxHash h) (ReceiptHash h)
    (Bloom h) v (Number h) (GasLimit h) (GasUsed h) (Time h)
    (Extra h) (MixDigest h) (Nonce h) (Signature h).

Definition withNonceCap (v : Z) (e : Nuclear) : Nuclear :=
  mkNuclear v (rewardAbi e) (dposAbi e) (blacklistAbi e) (sporkAbi e)
    (mnregAbi e) (treasuryAbi e) (systemFaucet e) (xferGas e) (callGas e)
    (unlimitedGas e) (knownStakes e) (nextKSPurge e) (txhashMap e).

(** Methods of the engine that live in the mining files of the package. *)
Class Mining `{Collaborators} : Type := {
  (** Modelled from the spec: [enforceTime] "clamps a freshly prepared
      header into" the time window; it yields the header's new time and its
      error. *)
  enforceTime : Nuclear -> Header -> TimeTarget -> Z * option error;
  (** the PoS search: success flag, error, and the header as the search
      left it (coinbase, time, nonce filled in); it is taken not to write to
      the engine *)
  mine : Nuclear -> ChainReader -> Header -> bool * option error * Header;
}.

(** The mining callbacks of the engine struct.  A nil function value is
    [None]. *)
Definition SignerFn : Type := Address -> Hash -> list Byte.byte + error.

Record MinerCB : Type := mkMinerCB {
  signerFn : option SignerFn;
  accountsFn : option (unit -> list Address);
  peerCountFn : option (unit -> Z);
  isMiningFn : option (unit -> bool);
}.

(** The callbacks as [New] leaves them: no signer, three defaults. *)
Definition NewCB : MinerCB :=
  {| signerFn := None;
     accountsFn := Some (fun _ => []);
     peerCountFn := Some (fun _ => 0);
     isMiningFn := Some (fun _ => false) |}.


Definition SetMinerNonceCap (e : Nuclear) (cap : Z) : Nuclear := withNonceCap cap e.
Definition GetMinerNonceCap (e : Nuclear) : Z := nonceCap e.

Inductive UnclesError : Type := errUnclesNotAllowed.

Definition VerifyUncles (block : Block) : option UnclesError :=
  if (0 <? length (Uncles block))%nat then Some errUnclesNotAllowed else None.

(** The sealed copy of a block: the given header, the same body. *)
Definition WithSeal (b : Block) (header : Header) : Block :=
  {| block_Header := header; Transactions := Transactions b; Uncles := Uncles b |}.

Section Entry.
Context `{Params} `{Mining}.

Definition posPrepare (e : Nuclear) (chain : ChainReader) (header parent : Header)
  : TimeTarget * option error * Header :=
  (* Clear field to be set in mining *)
  let header := withCoinbase 0 header in
  let header := withNonce 0 header in
  let time_target := calcTimeTarget e chain parent in
  let '(time, err) := enforceTime e header time_target in
  let header := withTime time header in
  (* Repurpose the MixDigest field *)
  let header := withMixDigest (calcPoSModifier e chain (Time header) parent) header in
  (* Diff *)
  let header :=
    withDifficulty (calcPoSDifficulty e chain (Time header) parent time_target)
      header in
  (time_target, err, header).

Definition CalcDifficulty (e : Nuclear) (chain : ChainReader) (time : Z)
    (parent : Header) : Z :=
  let time_target := calcTimeTarget e chain parent in
  calcPoSDifficulty e chain time parent time_target.

(** The task that [Seal] launches.  [receiver_ready] tells whether the
    results channel takes a value at the moment of the non-blocking send; the
    first component of the result is what went through the channel. *)
Definition Seal (e : Nuclear) (cb : MinerCB) (chain : ChainReader) (block : Block)
    (receiver_ready : bool) : Outcome (option SealResult * Nuclear) :=
  let header := block_Header block in
  let txhash := TxHash header in
  let result := NewSealResult (Some block) None [] in
  let offer (r : SealResult) := if receiver_ready then Some r else None in
  let mined : Outcome (option (SealResult * Header) * Nuclear) :=
    if negb (Number header =? 0) then
      let '(success, err, header) := mine e chain header in
      (* NOTE: due to the fact that PoS mining may change Coinbase it is
         required to reprocess all transaction with correct state *)
      let recreated :=
        if success && bool_decide (err = None) then
          match recreateBlock e chain header (Transactions block) with
          | Panic => Panic
          | Done rc => Done (rc_result rc, rc_err rc, rc_engine rc)
          end
        else Done (Some result, err, e) in
      match recreated with
      | Panic => Panic
      | Done (result, err, e) =>
        let success := if bool_decide (err <> None) then false else success in
        if negb success then Done (None, e)
        else
          match result with
          | Some result =>
            match sr_Block result with
            | Some b => Done (Some (result, block_Header b), e)
            | None => Panic
            end
          | None => Panic
          end
      end
    else Done (Some (result, header), e) in
  match mined with
  | Panic => Panic
  | Done (None, e) => Done (offer (NewSealResult None None []), e)
  | Done (Some (result, header), e) =>
    let sighash := SignatureHash header in
    match signerFn cb with
    | None => Panic
    | Some sign =>
      match sign (Coinbase header) sighash with
      | inr err => Done (None, e)
      | inl sig =>
        let header := withSignature sig header in
        match sr_Block result with
        | None => Panic
        | Some b =>
          let result :=
            NewSealResult (Some (WithSeal b header)) (sr_State result)
              (sr_Receipts result) in
          let e := withTxhashMap (lru_Add (TxHash header) txhash (txhashMap e)) e in
          if receiver_ready then Done (Some result, e)
          else Done (None, (SealHash e header).2)
        end
      end
    end
  end.

End Entry.

(** The engine's [Prepare] (the state database has a method of the same
    name). *)
Module Engine.
Section Prepare.
Context `{Params} `{Mining}.

Definition Prepare (e : Nuclear) (chain : ChainReader) (header : Header)
  : option error * Header :=
  match GetHeader chain (ParentHash header)
          (wrap64 (big_Uint64 (Number header) - 1)) with
  | None => (Some ErrUnknownAncestor, header)
  | Some parent =>
    let '(_, err, header) := posPrepare e chain header parent in
    (err, header)
  end.

End Prepare.
End Engine.

(** ** The consensus signer

    The signer used for engine-synthesised transactions.  The sender that a
    consensus transaction carries is a field of the transaction type, which is
    outside the package: [ConsensusSender] stands for it. *)
Inductive SignerError : Type :=
  | errNotSupported
  | errNotConsensusTx.

Module ConsensusSigner.

Definition SignatureValues (tx : Transaction) (sig : list Byte.byte)
  : option (Z * Z * Z) * option SignerError :=
  (None, Some errNotSupported).

Definition Hash (tx : Transaction) : Z := 0.

Definition Sender (ConsensusSender : Transaction -> Address) (tx : Transaction)
  : Address * option SignerError :=
  if negb (IsConsensus tx) then (0, Some errNotConsensusTx)
  else (ConsensusSender tx, None).

End ConsensusSigner.

(** Stand-ins for the mining methods: the clamp keeps the time inside the
    window of [demo_collab]; the search either fails or proposes as 0xAA one
    second later. *)
Definition demo_clamp (h : Header) (window : Z * Z) : Z * option error :=
  (Z.max window.1 (Z.min (Time h) window.2), None).

Definition demo_mining_ok : @Mining _ demo_rewarding_collab :=
  @Build_Mining _ demo_rewarding_collab
    (fun _ h tt => demo_clamp h tt)
    (fun _ _ h => (true, None, withTime (Time h + 1) (withCoinbase 0xAA h))).

Definition demo_mining_fail : @Mining _ demo_rewarding_collab :=
  @Build_Mining _ demo_rewarding_collab
    (fun _ h tt => demo_clamp h tt)
    (fun _ _ h => (false, None, h)).

Definition demo_signer : SignerFn := fun coinbase sighash => inl demo_signature.

(** An engine that knows the stake of [demo_stake_1] (time 1000) and an old
    stake of another proposer (time 10), with no purge done yet. *)
Definition demo_two_stakes : Nuclear :=
  withKnownStakes
    {[ (0xAA, 77) := {| block := 65536; ts := 1000 |};
       (0xCC, 5) := {| block := 1; ts := 10 |} ]}
    (@New demo_params).

(** Block 5 with 33 bytes of extra data; a migration block 1 proposed by
    0xAA; a non-genesis header and a number-0 header on an unknown parent. *)
Definition demo_block_5_long_extra : Header :=
  mkHeader 589824 0 0xAA 1 0 0 0 1 5 8000000 0 1000 (repeat Byte.x00 33) 1000 0 [].
Definition demo_block_1_foreign : Header := demo_header 75 0xAA 9 1 8000000 940 0 [].
Definition demo_orphan_5 : Header := demo_header 4242 0xAA 1 5 8000000 1000 1000 [].
Definition demo_orphan_0 : Header := demo_header 4242 0xAA 1 0 8000000 1000 1000 [].

(** Block 5 claimed by 0xBB but signed as 0xAA; 0xBB has no code. *)
Definition demo_block_5_foreign : Header :=
  demo_header 589824 0xBB 1 5 8000000 1000 1000 demo_signature.

(** A spork registry that answers call gas 2^64 + 5 and transfer gas 7. *)
Definition demo_wide_state : StateAPI :=
  demo_state (fun _ => demo_ok (be_bytes 32 (2 ^ 64 + 5) ++ be_bytes 32 7)).
Definition demo_wide_collab : @Collaborators demo_wide_state :=
  demo_collab demo_wide_state (fun _ => None) [].
Definition demo_wide_chain : @ChainReader demo_wide_state :=
  demo_chain demo_wide_state [] demo_stake_parent None.

(** A reader of the rewarding world that has the parent state. *)
Definition demo_rewarding_chain_state : @ChainReader demo_rewarding_state :=
  demo_chain demo_rewarding_state [] demo_stake_parent (Some demo_governed_state).



(** The work item of the miner: header 5 without proposer yet, one user
    transaction; and the callbacks with a signer installed. *)
Definition demo_work_header : Header := demo_header 589824 0 1 5 8000000 1000 1000 [].
Definition demo_work : Block := mkBlock demo_work_header [demo_user_tx] [].
Definition demo_callbacks : MinerCB :=
  {| signerFn := Some demo_signer; accountsFn := Some (fun _ => [0xAA]);
     peerCountFn := Some (fun _ => 3); isMiningFn := Some (fun _ => true) |}.

(** What the seal task delivers for it (evaluated once). *)
Definition demo_seal_outcome : option (@SealResult demo_rewarding_state) * Nuclear :=
  Eval vm_compute in
    match @Seal _ demo_rewarding_collab demo_mining_ok (@New demo_params)
            demo_callbacks demo_rewarding_chain_state demo_work true with
    | Done r => r
    | Panic => (None, @New demo_params)
    end.

(** * Properties *)

(** One step through the checks of [VerifyHeader]: case analysis on the
    outermost test of the result. *)
Ltac verify_step H :=
  match goal with
  | |- context [vr_err (if ?c then _ else _)] => destruct c eqn:H
  | |- context [vr_err (match ?x with Some _ => _ | None => _ end)] =>
    destruct x eqn:H
  end.

Ltac verify_calls_step H :=
  match goal with
  | |- context [vr_calls (if ?c then _ else _)] => destruct c eqn:H
  | |- context [vr_calls (match ?x with Some _ => _ | None => _ end)] =>
    destruct x eqn:H
  end.

(** ** Machine arithmetic *)

Lemma wrap64_small (x : Z) : 0 <= x < 2 ^ 64 -> wrap64 x = x.
Proof. intros Hx. unfold wrap64. apply Z.mod_small. exact Hx. Qed.

Lemma wrap64_range (x : Z) : 0 <= wrap64 x < 2 ^ 64.
Proof. unfold wrap64. apply Z.mod_pos_bound. lia. Qed.

Lemma int64_small (x : Z) : - 2 ^ 63 <= x < 2 ^ 63 -> int64 x = x.
Proof.
  intros Hx. unfold int64. rewrite Z.mod_small; lia.
Qed.

(** ** DoS guard *)

Section DoSFacts.
Context `{Params} `{Collaborators}.

Implicit Types (e : Nuclear) (chain : ChainReader) (header parent : Header)
  (now : nat -> Z).

Lemma isActive_spec (ksv : KnownStakeValue) (now : Z) :
  isActive ksv now = true <-> wrap64 (now - ts ksv) < StakeThrottle.
Proof. unfold isActive. apply Z.ltb_lt. Qed.

(** With a clock that did not run backwards the subtraction is exact. *)
Lemma isActive_elapsed (ksv : KnownStakeValue) (now : Z) :
  0 <= ts ksv <= now -> now < 2 ^ 64 ->
  (isActive ksv now = true <-> now - ts ksv < StakeThrottle).
Proof.
  intros Hts Hnow. rewrite isActive_spec, wrap64_small; [reflexivity | lia].
Qed.

Lemma isActive_just_stored (h : Hash) (now : Z) :
  0 < StakeThrottle -> isActive {| block := h; ts := now |} now = true.
Proof.
  intros Hpos. apply isActive_spec. simpl.
  replace (now - now) with 0 by lia. rewrite wrap64_small; lia.
Qed.

Lemma purgeInactive_keeps (now : Z) (m : gmap KnownStakeKey KnownStakeValue)
    (k : KnownStakeKey) (v : KnownStakeValue) :
  m !! k = Some v -> isActive v now = true -> purgeInactive now m !! k = Some v.
Proof.
  intros Hk Hact. unfold purgeInactive.
  apply map_lookup_filter_Some. split; [exact Hk | exact Hact].
Qed.

Lemma purgeInactive_drops (now : Z) (m : gmap KnownStakeKey KnownStakeValue)
    (k : KnownStakeKey) (v : KnownStakeValue) :
  m !! k = Some v -> isActive v now = false -> purgeInactive now m !! k = None.
Proof.
  intros Hk Hact. unfold purgeInactive.
  apply map_lookup_filter_None. right. intros v' Hv'.
  rewrite Hk in Hv'. injection Hv' as <-. simpl. rewrite Hact. discriminate.
Qed.

(** The old-fork rule alone decides the call when it fires. *)
Lemma checkDoS_old_fork_fires e chain header parent now :
  Time parent < wrap64 (now 0%nat - OldForkPeriod) ->
  wrap64 (now 0%nat - OldForkPeriod) < Time (CurrentHeader chain) ->
  checkDoS e chain header parent now = (Some ErrDoSThrottle, e).
Proof.
  intros Hp Hc. unfold checkDoS.
  apply Z.ltb_lt in Hp. apply Z.ltb_lt in Hc. rewrite Hp, Hc. reflexivity.
Qed.


(** Past both rules the call succeeds and the key holds the new value. *)
Lemma checkDoS_records e chain header parent now :
  0 < StakeThrottle ->
  (Time parent <? wrap64 (now 0%nat - OldForkPeriod))
    && (wrap64 (now 0%nat - OldForkPeriod) <? Time (CurrentHeader chain)) = false ->
  match knownStakes e !! (Coinbase header, ParentHash header) with
  | Some prev => isActive prev (now 1%nat) && negb (block prev =? HeaderHash header) = false
  | None => True
  end ->
  exists e',
    checkDoS e chain header parent now = (None, e')
    /\ knownStakes e' !! (Coinbase header, ParentHash header)
       = Some {| block := HeaderHash header; ts := now 1%nat |}.
Proof.
  intros Hpos Hfork Hentry. unfold checkDoS. rewrite Hfork.
  unfold LoadOrStore, Store.
  set (k := (Coinbase header, ParentHash header)) in *.
  set (v := {| block := HeaderHash header; ts := now 1%nat |}).
  assert (Hv : isActive v (now 1%nat) = true)
    by (apply isActive_just_stored; exact Hpos).
  destruct (knownStakes e !! k) as [prev|] eqn:Hk; cbn [andb block].
  - change (block v) with (HeaderHash header). rewrite Hentry.
    destruct (nextKSPurge _ <? _); eexists; (split; [reflexivity |]); simpl.
    + apply purgeInactive_keeps; [apply lookup_insert_eq | exact Hv].
    + apply lookup_insert_eq.
  - destruct (nextKSPurge _ <? _); eexists; (split; [reflexivity |]); simpl.
    + apply purgeInactive_keeps; [apply lookup_insert_eq | exact Hv].
    + apply lookup_insert_eq.
Qed.

(** When the call rejects, the engine is left as it was. *)
Lemma checkDoS_reject_unchanged e chain header parent now err e' :
  checkDoS e chain header parent now = (Some err, e') ->
  err = ErrDoSThrottle /\ e' = e.
Proof.
  unfold checkDoS. destruct (_ && _); [intros [= <- <-]; done |].
  destruct (LoadOrStore _ _ _) as [[prev ok] stakes].
  destruct (ok && _); [intros [= <- <-]; done |].
  destruct (nextKSPurge _ <? _); discriminate.
Qed.

(** A rejection that the old-fork rule did not cause comes from an active
    stored entry naming another block. *)
Lemma checkDoS_reject_cause e chain header parent now err e' :
  (Time parent <? wrap64 (now 0%nat - OldForkPeriod))
    && (wrap64 (now 0%nat - OldForkPeriod) <? Time (CurrentHeader chain)) = false ->
  checkDoS e chain header parent now = (Some err, e') ->
  exists prev,
    knownStakes e !! (Coinbase header, ParentHash header) = Some prev
    /\ wrap64 (now 1%nat - ts prev) < StakeThrottle
    /\ block prev <> HeaderHash header.
Proof.
  intros Hfork. unfold checkDoS. rewrite Hfork. unfold LoadOrStore.
  destruct (knownStakes e !! _) as [prev|] eqn:Hk; cbn [andb].
  - destruct (isActive prev (now 1%nat)) eqn:Hact; cbn [andb block].
    + destruct (block prev =? HeaderHash header) eqn:Heq; cbn [negb].
      * destruct (nextKSPurge _ <? _); discriminate.
      * intros _. exists prev. split; [reflexivity |]. split.
        -- apply isActive_spec. exact Hact.
        -- apply Z.eqb_neq. exact Heq.
    + destruct (nextKSPurge _ <? _); discriminate.
  - destruct (nextKSPurge _ <? _); discriminate.
Qed.


(** C7. With threshold = now minus [OldForkPeriod] (in [uint64] arithmetic):
    when the parent's time is strictly below the threshold and the chain
    head's time strictly above it, [checkDoS] returns [ErrDoSThrottle];
    when the parent is recent or the head is stale, the old-fork rule does
    not reject: a rejection then stems from the stake table. *)
Theorem checkDoS_old_fork_suppression e chain header parent now :
  let threshold := wrap64 (now 0%nat - OldForkPeriod) in
  (Time parent < threshold /\ threshold < Time (CurrentHeader chain) ->
   checkDoS e chain header parent now = (Some ErrDoSThrottle, e))
  /\
  (~ (Time parent < threshold /\ threshold < Time (CurrentHeader chain)) ->
   (knownStakes e !! (Coinbase header, ParentHash header) = None ->
    (checkDoS e chain header parent now).1 = None)
   /\
   (forall err e', checkDoS e chain header parent now = (Some err, e') ->
    exists prev,
      knownStakes e !! (Coinbase header, ParentHash header) = Some prev
      /\ wrap64 (now 1%nat - ts prev) < StakeThrottle
      /\ block prev <> HeaderHash header)).
Proof.
  intros threshold. split.
  - intros [Hp Hc]. apply checkDoS_old_fork_fires; assumption.
  - intros Hfork.
    assert (Hcond : (Time parent <? threshold)
                    && (threshold <? Time (CurrentHeader chain)) = false).
    { destruct (Time parent <? threshold) eqn:Hp; [| reflexivity].
      destruct (threshold <? Time (CurrentHeader chain)) eqn:Hc; [| reflexivity].
      exfalso. apply Hfork. split; apply Z.ltb_lt; assumption. }
    split.
    + intros Hnone.
      destruct (checkDoS e chain header parent now) as [[err|] e'] eqn:Hres;
        [| reflexivity].
      destruct (checkDoS_reject_cause e chain header parent now err e' Hcond Hres)
        as (prev & Hprev & _). congruence.
    + intros err e' Hres.
      exact (checkDoS_reject_cause e chain header parent now err e' Hcond Hres).
Qed.

(** When the clock is past [OldForkPeriod] the threshold is the plain
    difference. *)
Lemma old_fork_threshold_exact (now0 : Z) :
  0 <= OldForkPeriod <= now0 -> now0 < 2 ^ 64 ->
  wrap64 (now0 - OldForkPeriod) = now0 - OldForkPeriod.
Proof. intros Hp Hn. apply wrap64_small. lia. Qed.

End DoSFacts.



(** Worked example for C7: a parent from time 50 while the head is at time
    940 and the clock reads 1010 (threshold 110). *)
Lemma checkDoS_old_fork_suppression_witness :
  @checkDoS demo_params _ demo_plain_collab (@New demo_params) demo_stake_chain
    demo_stake_1 (demo_header 70 0xBB 3 4 8000000 50 0 []) (fun _ => 1010)
  = (Some ErrDoSThrottle, @New demo_params).
Proof.
  apply (@checkDoS_old_fork_suppression demo_params _ demo_plain_collab).
  split; reflexivity.
Defined.

(** ** Signing hashes *)

Lemma lru_remove_find_ne (k k' : Hash) (c : list (Hash * Hash)) :
  k <> k' -> lru_find k' (lru_remove k c) = lru_find k' c.
Proof.
  intros Hne. induction c as [|[k0 v0] c IH]; [reflexivity |].
  cbn [lru_remove lru_find].
  destruct (k0 =? k) eqn:Hk0.
  - apply Z.eqb_eq in Hk0. subst k0.
    apply Z.eqb_neq in Hne. rewrite Hne. reflexivity.
  - cbn [lru_find]. destruct (k0 =? k'); [reflexivity | exact IH].
Qed.

Lemma lru_Get_value (k : Hash) (c : list (Hash * Hash)) :
  (lru_Get k c).1 = lru_find k c.
Proof. unfold lru_Get. destruct (lru_find k c); reflexivity. Qed.

(** A lookup reorders the cache but does not change what it maps. *)
Lemma lru_Get_keeps_mapping (k k' : Hash) (c : list (Hash * Hash)) :
  lru_find k' (lru_Get k c).2 = lru_find k' c.
Proof.
  unfold lru_Get. destruct (lru_find k c) as [v|] eqn:Hk; [| reflexivity].
  cbn [snd lru_find]. destruct (k =? k') eqn:Hkk.
  - apply Z.eqb_eq in Hkk. subst k'. symmetry. exact Hk.
  - apply lru_remove_find_ne. apply Z.eqb_neq. exact Hkk.
Qed.

Lemma lru_Add_bounded (k v : Hash) (c : list (Hash * Hash)) :
  (length c <= lru_capacity)%nat -> (length (lru_Add k v c) <= lru_capacity)%nat.
Proof.
  intros Hc. unfold lru_Add. destruct (lru_find k c) eqn:Hk.
  - assert (Hrem : (S (length (lru_remove k c)) <= length c)%nat).
    { clear Hc. induction c as [|[k0 v0] c IH]; [discriminate |].
      cbn [lru_find lru_remove] in *. destruct (k0 =? k).
      - cbn [length]. lia.
      - cbn [length]. specialize (IH Hk). lia. }
    cbn [length]. lia.
  - rewrite length_take. lia.
Qed.

Section HashFacts.
Context `{Collaborators}.

Lemma SealHash_unfold (e : Nuclear) (header : Header) :
  (SealHash e header).1
  = LegacyKeccak256 (rlp_Encode [
      RlpHash (ParentHash header);
      RlpHash (UncleHash header);
      RlpHash (sealTxHash e header);
      RlpBig (Number header);
      RlpUint64 (GasLimit header) ]).
Proof.
  unfold SealHash, sealTxHash.
  pose proof (lru_Get_value (TxHash header) (txhashMap e)) as Hget.
  destruct (lru_Get (TxHash header) (txhashMap e)) as [item cache].
  cbn [fst] in Hget. subst item. reflexivity.
Qed.

Lemma SealHash_keeps_mapping (e : Nuclear) (header other : Header) :
  sealTxHash (SealHash e header).2 other = sealTxHash e other.
Proof.
  unfold SealHash, sealTxHash.
  pose proof (lru_Get_keeps_mapping (TxHash header) (TxHash other) (txhashMap e))
    as Hkeep.
  destruct (lru_Get (TxHash header) (txhashMap e)) as [item cache].
  cbn [snd] in *. unfold withTxhashMap. cbn [txhashMap].
  rewrite Hkeep. reflexivity.
Qed.

(** C8. For every header and every state of the txhash cache, the seal hash
    is the legacy Keccak-256 of the RLP list of the parent hash, the uncle
    hash, the resolved transactions root (the cached pre-injection root when
    the header's root has a cache entry), the number and the gas limit; so
    two headers, under any two cache states, that agree on these five
    resolved values have equal seal hashes, and computing a seal hash does
    not change what the cache resolves. *)
Theorem SealHash_resolved_fields :
  (forall e h,
     (SealHash e h).1
     = LegacyKeccak256 (rlp_Encode [
         RlpHash (ParentHash h); RlpHash (UncleHash h);
         RlpHash (sealTxHash e h); RlpBig (Number h); RlpUint64 (GasLimit h) ]))
  /\ (forall e1 e2 h1 h2,
        ParentHash h1 = ParentHash h2 ->
        UncleHash h1 = UncleHash h2 ->
        sealTxHash e1 h1 = sealTxHash e2 h2 ->
        Number h1 = Number h2 ->
        GasLimit h1 = GasLimit h2 ->
        (SealHash e1 h1).1 = (SealHash e2 h2).1)
  /\ (forall e h h', sealTxHash (SealHash e h).2 h' = sealTxHash e h').
Proof.
  split; [exact SealHash_unfold |]. split; [| exact SealHash_keeps_mapping].
  intros e1 e2 h1 h2 Hp Hu Ht Hn Hg.
  rewrite !SealHash_unfold, Hp, Hu, Ht, Hn, Hg. reflexivity.
Qed.

End HashFacts.

(** Worked example for C8: the sealed block and the work item it came from
    differ in coinbase, state root, transactions root, time, nonce and
    signature, and hash alike. *)
Lemma SealHash_resolved_fields_witness :
  sealTxHash demo_seal_engine demo_sealed = 400
  /\ sealTxHash (@New demo_params) demo_unsealed = 400
  /\ (@SealHash _ demo_plain_collab demo_seal_engine demo_sealed).1
     = (@SealHash _ demo_plain_collab (@New demo_params) demo_unsealed).1.
Proof.
  split; [reflexivity |]. split; [reflexivity |].
  destruct (@SealHash_resolved_fields _ demo_plain_collab) as (_ & Hsame & _).
  apply Hsame; reflexivity.
Defined.

(** ** Seal verification *)

Section SealFacts.
Context `{Params} `{Collaborators}.

(** C3. [VerifySeal] returns [ErrMissingState] when the parent's block state
    cannot be calculated; otherwise, when the coinbase is blacklisted, it
    returns [errBlacklistedCoinbase] whatever the signature is; otherwise a
    signature whose length is not 65 bytes yields [errMissingSig]; otherwise
    a 65-byte signature whose (r, s, v) fail domain validation yields
    [ErrInvalidSig]. *)
Theorem VerifySeal_check_order (e : Nuclear) (chain : ChainReader) (header : Header) :
  let parent_state :=
    CalculateBlockState chain (ParentHash header)
      (wrap64 (big_Uint64 (Number header) - 1)) in
  let sig := Signature header in
  (parent_state = None -> VerifySeal e chain header = Some ErrMissingState)
  /\ (forall blockst,
        parent_state = Some blockst ->
        IsBlacklisted blockst (Coinbase header) = true ->
        forall sig', VerifySeal e chain (withSignature sig' header)
                     = Some errBlacklistedCoinbase)
  /\ (forall blockst,
        parent_state = Some blockst ->
        IsBlacklisted blockst (Coinbase header) = false ->
        length sig <> 65%nat ->
        VerifySeal e chain header = Some errMissingSig)
  /\ (forall blockst,
        parent_state = Some blockst ->
        IsBlacklisted blockst (Coinbase header) = false ->
        length sig = 65%nat ->
        ValidateSignatureValues (nth 64 sig Byte.x00) (SetBytes (take 32 sig))
          (SetBytes (take 32 (drop 32 sig))) true = false ->
        VerifySeal e chain header = Some ErrInvalidSig).
Proof.
  intros parent_state sig. subst parent_state sig.
  split; [| split; [| split]].
  - intros Hst. unfold VerifySeal, verifySealState. rewrite Hst. reflexivity.
  - intros blockst Hst Hbl sig'. unfold VerifySeal, verifySealState.
    cbn [withSignature ParentHash Number Coinbase].
    rewrite Hst, Hbl. reflexivity.
  - intros blockst Hst Hbl Hlen. unfold VerifySeal, verifySealState. rewrite Hst, Hbl.
    apply Nat.eqb_neq in Hlen. unfold sealLen. rewrite Hlen. reflexivity.
  - intros blockst Hst Hbl Hlen Hval. unfold VerifySeal, verifySealState. rewrite Hst, Hbl.
    unfold sealLen. rewrite Hlen, Nat.eqb_refl. cbn [negb].
    rewrite Hval. reflexivity.
Qed.

(** The gas-limit difference computed in [int64] is the absolute difference
    when both limits fit. *)
Lemma gas_limit_diff_exact (p h : Z) :
  0 <= p < 2 ^ 63 -> 0 <= h <= 0x7fffffffffffffff ->
  wrap64 (if int64 (int64 p - int64 h) <? 0
          then int64 (int64 (int64 p - int64 h) * -1)
          else int64 (int64 p - int64 h))
  = Z.abs (h - p).
Proof.
  intros Hp Hh.
  assert (H63 : 2 ^ 63 = 9223372036854775808) by reflexivity.
  assert (H64 : 2 ^ 64 = 18446744073709551616) by reflexivity.
  rewrite (int64_small p), (int64_small h), (int64_small (p - h)) by lia.
  destruct (p - h <? 0) eqn:Hneg.
  - apply Z.ltb_lt in Hneg. rewrite int64_small by lia.
    rewrite wrap64_small by lia. lia.
  - apply Z.ltb_ge in Hneg. rewrite wrap64_small by lia. lia.
Qed.

(** An accepted header with a known parent passed the cap and the bound
    tests. *)
Lemma VerifyHeader_accept_inv (e : Nuclear) (chain : ChainReader) (header : Header)
    (seal : bool) (now : nat -> Z) (parent : Header) :
  GetHeader chain (ParentHash header) (wrap64 (big_Uint64 (Number header) - 1))
    = Some parent ->
  vr_err (VerifyHeader e chain header seal now) = None ->
  GasLimit header <= 0x7fffffffffffffff
  /\ (GasLimit parent / GasLimitBoundDivisor
      <=? wrap64 (if int64 (int64 (GasLimit parent) - int64 (GasLimit header)) <? 0
                  then int64 (int64 (int64 (GasLimit parent) - int64 (GasLimit header)) * -1)
                  else int64 (int64 (GasLimit parent) - int64 (GasLimit header))))
     && negb (IsGen2Migration header) && negb (IsGen2Migration parent) = false.
Proof.
  intros Hparent. unfold VerifyHeader. rewrite Hparent. cbv zeta.
  verify_step Hextra; [discriminate |].
  verify_step Hmig; [discriminate |].
  verify_step Htime; [discriminate |].
  verify_step Hmod; [discriminate |].
  verify_step Hdiff; [discriminate |].
  verify_step Hcap; [discriminate |].
  verify_step Hused; [discriminate |].
  verify_step Hbound; [discriminate |].
  intros _. split; [apply Z.ltb_ge; exact Hcap | reflexivity].
Qed.

(** A header with a known parent that fails the bound test is rejected. *)
Lemma VerifyHeader_bound_rejects (e : Nuclear) (chain : ChainReader) (header : Header)
    (seal : bool) (now : nat -> Z) (parent : Header) :
  GetHeader chain (ParentHash header) (wrap64 (big_Uint64 (Number header) - 1))
    = Some parent ->
  (GasLimit header <= 0x7fffffffffffffff ->
   (GasLimit parent / GasLimitBoundDivisor
    <=? wrap64 (if int64 (int64 (GasLimit parent) - int64 (GasLimit header)) <? 0
                then int64 (int64 (int64 (GasLimit parent) - int64 (GasLimit header)) * -1)
                else int64 (int64 (GasLimit parent) - int64 (GasLimit header))))
   && negb (IsGen2Migration header) && negb (IsGen2Migration parent) = true) ->
  vr_err (VerifyHeader e chain header seal now) <> None.
Proof.
  intros Hparent Hviol. unfold VerifyHeader. rewrite Hparent. cbv zeta.
  verify_step Hextra; [discriminate |].
  verify_step Hmig; [discriminate |].
  verify_step Htime; [discriminate |].
  verify_step Hmod; [discriminate |].
  verify_step Hdiff; [discriminate |].
  verify_step Hcap; [discriminate |].
  verify_step Hused; [discriminate |].
  apply Z.ltb_ge in Hcap. rewrite (Hviol Hcap). discriminate.
Qed.

(** C5, as amended.  For a header with a known parent whose gas limit is
    below 2^63, neither of the two being a Gen-2 migration block: if
    [VerifyHeader] accepts the header then
    |header.GasLimit - parent.GasLimit| < parent.GasLimit / GasLimitBoundDivisor;
    conversely a header violating the bound is rejected, and when the checks
    placed before the gas-limit checks pass, the rejection is the
    gas-limit-bound error.  (The bound is waived when the header or its
    parent is a migration block.) *)
Theorem VerifyHeader_gas_limit_bound (e : Nuclear) (chain : ChainReader)
    (header : Header) (seal : bool) (now : nat -> Z) (parent : Header) :
  GetHeader chain (ParentHash header) (wrap64 (big_Uint64 (Number header) - 1))
    = Some parent ->
  0 <= GasLimit header ->
  0 <= GasLimit parent < 2 ^ 63 ->
  IsGen2Migration header = false ->
  IsGen2Migration parent = false ->
  let r := VerifyHeader e chain header seal now in
  let limit := GasLimit parent / GasLimitBoundDivisor in
  (vr_err r = None -> Z.abs (GasLimit header - GasLimit parent) < limit)
  /\ (limit <= Z.abs (GasLimit header - GasLimit parent) ->
      vr_err r <> None
      /\ (Z.of_nat (length (Extra header)) <= MaximumExtraDataSize ->
          checkTime e header (calcTimeTarget e chain parent) = None ->
          MixDigest header = calcPoSModifier e chain (Time header) parent ->
          Difficulty header
          = calcPoSDifficulty e chain (Time header) parent
              (calcTimeTarget e chain parent) ->
          GasLimit header <= 0x7fffffffffffffff ->
          GasUsed header <= GasLimit header ->
          r = mkVerifyResult
                (Some (ErrGasLimitBound (GasLimit header) (GasLimit parent) limit))
                e [])).
Proof.
  intros Hparent Hh Hp Hmig Hpmig r limit. subst r limit. split.
  - intros Hacc.
    destruct (VerifyHeader_accept_inv e chain header seal now parent Hparent Hacc)
      as [Hcap Hbound].
    rewrite gas_limit_diff_exact in Hbound by lia.
    rewrite Hmig, Hpmig in Hbound. cbn [negb] in Hbound.
    rewrite !andb_true_r in Hbound. apply Z.leb_gt in Hbound. exact Hbound.
  - intros Hviol. split.
    + apply (VerifyHeader_bound_rejects e chain header seal now parent Hparent).
      intros Hcap. rewrite gas_limit_diff_exact by lia.
      rewrite Hmig, Hpmig. cbn [negb]. rewrite !andb_true_r.
      apply Z.leb_le. exact Hviol.
    + intros Hextra Htime Hmod Hdiff Hcap Hused.
      unfold VerifyHeader. rewrite Hparent. cbv zeta.
      assert (Hextra' : (MaximumExtraDataSize <? Z.of_nat (length (Extra header)))
                        = false)
        by (apply Z.ltb_ge; exact Hextra).
      rewrite Hmig, Hpmig, Htime, Hextra'. cbn [negb andb].
      rewrite <- Hmod, <- Hdiff, !Z.eqb_refl. cbn [negb].
      assert (Hcap' : (0x7fffffffffffffff <? GasLimit header) = false)
        by (apply Z.ltb_ge; exact Hcap).
      rewrite Hcap'.
      assert (Hused' : (GasLimit header <? GasUsed header) = false)
        by (apply Z.ltb_ge; exact Hused).
      rewrite Hused'. cbn [andb].
      rewrite gas_limit_diff_exact by lia.
      assert (Hle : (GasLimit parent / GasLimitBoundDivisor
                     <=? Z.abs (GasLimit header - GasLimit parent)) = true)
        by (apply Z.leb_le; exact Hviol).
      rewrite Hle. reflexivity.
Qed.

(** Reading the seal stage: the seal check is in the list exactly for
    [seal]; the DoS guard is in it exactly when [seal] is set, the three
    checks before it succeeded and the header is not in the store. *)
Lemma sealStageCalls_VerifySeal (e : Nuclear) (chain : ChainReader)
    (header : Header) (seal : bool) :
  In CallVerifySeal (sealStageCalls e chain header seal) <-> seal = true.
Proof.
  unfold sealStageCalls. destruct seal.
  - split; [reflexivity |]. intros _.
    destruct (VerifySeal e chain header); [left; reflexivity |].
    destruct (verifyPoSHash e chain header); [left; reflexivity |].
    destruct (VerifyForkHashes chain header false); [left; reflexivity |].
    destruct (GetHeader chain _ _); left; reflexivity.
  - split; [| discriminate]. intros [Habs | []]. discriminate Habs.
Qed.

Lemma sealStageCalls_checkDoS (e : Nuclear) (chain : ChainReader)
    (header : Header) (seal : bool) :
  In CallCheckDoS (sealStageCalls e chain header seal) <->
  seal = true
  /\ VerifySeal e chain header = None
  /\ verifyPoSHash e chain header = None
  /\ VerifyForkHashes chain header false = None
  /\ GetHeader chain (HeaderHash header) (big_Uint64 (Number header)) = None.
Proof.
  unfold sealStageCalls. destruct seal; cycle 1.
  { split; [intros [Habs | []]; discriminate Habs | intros [Habs _]; discriminate Habs]. }
  destruct (VerifySeal e chain header);
    [split; [cbn; intuition discriminate | intros (_ & Habs & _); discriminate Habs] |].
  destruct (verifyPoSHash e chain header);
    [split; [cbn; intuition discriminate
            | intros (_ & _ & Habs & _); discriminate Habs] |].
  destruct (VerifyForkHashes chain header false);
    [split; [cbn; intuition discriminate
            | intros (_ & _ & _ & Habs & _); discriminate Habs] |].
  destruct (GetHeader chain _ _);
    [split; [cbn; intuition discriminate
            | intros (_ & _ & _ & _ & Habs); discriminate Habs] |].
  split; [intros _; repeat split | intros _; cbn; auto].
Qed.

(** C6, as amended.  Once the checks that precede the seal stage have passed
    (which does not depend on [seal]), [VerifyHeader] invokes, in this order
    and each only after the previous one succeeded: [VerifySeal] and
    [verifyPoSHash] if and only if [seal] is true; [VerifyForkHashes]
    whether or not [seal] is true; [checkDoS] only when [seal] is true and
    the header is not in the canonical store.  When [seal] is false, only
    [VerifyForkHashes] runs.  Before the seal stage none of them runs. *)
Theorem VerifyHeader_seal_stage (e : Nuclear) (chain : ChainReader)
    (header : Header) (seal : bool) (now : nat -> Z) :
  let calls := vr_calls (VerifyHeader e chain header seal now) in
  let unsealed := vr_calls (VerifyHeader e chain header false now) in
  (unsealed = [] \/ unsealed = [CallVerifyForkHashes])
  /\ (unsealed = [] -> calls = [])
  /\ (unsealed = [CallVerifyForkHashes] ->
      calls = sealStageCalls e chain header seal).
Proof.
  intros calls unsealed. subst calls unsealed.
  unfold VerifyHeader, sealStageCalls. cbv zeta.
  assert (Hstop : forall l : list Call,
            (@nil Call = [] \/ @nil Call = [CallVerifyForkHashes])
            /\ (@nil Call = [] -> @nil Call = [])
            /\ (@nil Call = [CallVerifyForkHashes] -> @nil Call = l)).
  { intros l. split; [left; reflexivity |].
    split; [reflexivity | discriminate]. }
  verify_calls_step Hextra; [apply Hstop |].
  verify_calls_step Hmig; [apply Hstop |].
  verify_calls_step Hparent; cycle 1.
  { destruct (negb (Number header =? 0)); apply Hstop. }
  verify_calls_step Htime; [apply Hstop |].
  verify_calls_step Hmod; [apply Hstop |].
  verify_calls_step Hdiff; [apply Hstop |].
  verify_calls_step Hcap; [apply Hstop |].
  verify_calls_step Hused; [apply Hstop |].
  verify_calls_step Hbound; [apply Hstop |].
  verify_calls_step Hmin; [apply Hstop |].
  verify_calls_step Hnum; [apply Hstop |].
  cbn [andb].
  destruct (VerifyForkHashes chain header false) as [ferr|] eqn:Hfork.
  - split; [right; reflexivity |]. split; [discriminate |]. intros _.
    destruct seal; [| reflexivity].
    destruct (VerifySeal e chain header); [reflexivity |].
    destruct (verifyPoSHash e chain header); reflexivity.
  - split; [right; reflexivity |]. split; [discriminate |]. intros _.
    destruct seal; [| reflexivity].
    destruct (VerifySeal e chain header); [reflexivity |].
    destruct (verifyPoSHash e chain header); [reflexivity |].
    cbn [andb app].
    destruct (GetHeader chain (HeaderHash header) (big_Uint64 (Number header)))
      as [known|] eqn:Hknown.
    + rewrite bool_decide_eq_false_2 by discriminate. reflexivity.
    + rewrite bool_decide_eq_true_2 by reflexivity.
      destruct (checkDoS e chain header _ now) as [derr e']. reflexivity.
Qed.

End SealFacts.

(** Worked example for C3: a header without parent state; a blacklisted
    proposer with an otherwise rejected 64-byte signature; a 64-byte
    signature; a 65-byte signature with r = 0. *)
Lemma VerifySeal_check_order_witness :
  @VerifySeal _ demo_plain_collab (@New demo_params) demo_chain_no_state
    (demo_signed (repeat Byte.x01 65)) = Some ErrMissingState
  /\ @VerifySeal _ demo_plain_collab (@New demo_params) demo_chain_blacklisting
       (withSignature (repeat Byte.x01 64) (demo_signed [])) = Some errBlacklistedCoinbase
  /\ @VerifySeal _ demo_plain_collab (@New demo_params) demo_chain_clean
       (demo_signed (repeat Byte.x01 64)) = Some errMissingSig
  /\ @VerifySeal _ demo_plain_collab (@New demo_params) demo_chain_clean
       (demo_signed (repeat Byte.x00 65)) = Some ErrInvalidSig.
Proof.
  split; [| split; [| split]].
  - apply (@VerifySeal_check_order _ demo_plain_collab). reflexivity.
  - destruct (@VerifySeal_check_order _ demo_plain_collab (@New demo_params)
                demo_chain_blacklisting (demo_signed [])) as (_ & Hbl & _).
    apply (Hbl demo_blacklisting_state); reflexivity.
  - destruct (@VerifySeal_check_order _ demo_plain_collab (@New demo_params)
                demo_chain_clean (demo_signed (repeat Byte.x01 64))) as (_ & _ & Hlen & _).
    apply (Hlen demo_empty_state); [reflexivity | reflexivity | discriminate].
  - destruct (@VerifySeal_check_order _ demo_plain_collab (@New demo_params)
                demo_chain_clean (demo_signed (repeat Byte.x00 65))) as (_ & _ & _ & Hval).
    apply (Hval demo_empty_state); reflexivity.
Defined.

(** ** Finalisation *)

Section FinalizeFacts.
Context `{Params} `{Collaborators}.

(** C9. For a header whose coinbase is the zero address, [finalize] returns
    without error the block assembled from the given transactions and
    receipts and the header with only its uncle hash set to the
    empty-uncle-list hash; the engine (gas limits), the state and the header's
    state root are as they were.  The statement holds whatever the governance
    steps would do, so none of them takes part. *)
Theorem finalize_zero_coinbase (e : Nuclear) (chain : ChainReader) (header : Header)
    (state : option StateDB) (txs : list Transaction) (receipts : list Receipt) :
  Coinbase header = 0 ->
  exists r,
    finalize e chain header state txs receipts = Done r
    /\ f_err r = None
    /\ f_engine r = e
    /\ f_state r = state
    /\ f_header r = withUncleHash uncleHash header
    /\ Root (f_header r) = Root header
    /\ f_block r = Some (NewBlock (withUncleHash uncleHash header) txs [] receipts)
    /\ f_receipts r = receipts.
Proof.
  intros Hcb. unfold finalize. rewrite Hcb. cbn [Z.eqb negb].
  eexists. split; [reflexivity |]. cbn. repeat split; reflexivity.
Qed.

(** C10. [recreateBlock] never returns from the [ErrUnknownAncestor] branch
    that follows the [CalculateBlockState] call: the tested [err] is the
    named result, still nil.  In particular a nil block state is not
    rejected there: the call goes on with it, and either panics on the nil
    state or, with no transaction to apply and a zero coinbase, returns a
    result that carries the nil state and no error. *)
Theorem recreateBlock_ancestor_check_unreachable (e : Nuclear) (chain : ChainReader)
    (header : Header) (txs : list Transaction) :
  (forall r, recreateBlock e chain header txs = Done r -> rc_site r <> AtAncestorCheck)
  /\ (CalculateBlockState chain (ParentHash header)
        (wrap64 (big_Uint64 (Number header) - 1)) = None ->
      match recreateBlock e chain header txs with
      | Panic => txs <> [] \/ Coinbase header <> 0
      | Done r =>
        txs = [] /\ Coinbase header = 0 /\ rc_err r = None /\ rc_site r = AtEnd
        /\ exists sr, rc_result r = Some sr /\ sr_State sr = None
      end).
Proof.
  split.
  - intros r. unfold recreateBlock. cbn [bool_decide decide_rel].
    rewrite bool_decide_eq_false_2 by (intros Hne; apply Hne; reflexivity).
    destruct txs as [|tx rest].
    + destruct (finalize _ _ _ _ _ _); [| discriminate].
      intros [= <-]. discriminate.
    + destruct (CalculateBlockState _ _ _) as [st|]; [| discriminate].
      destruct (applyTransactions _ _ _ _ _ _ _ _) as [err|[[rs ug] st']].
      * intros [= <-]. discriminate.
      * destruct (finalize _ _ _ _ _ _); [| discriminate].
        intros [= <-]. discriminate.
  - intros Hnil. unfold recreateBlock.
    rewrite bool_decide_eq_false_2 by (intros Hne; apply Hne; reflexivity).
    rewrite Hnil. destruct txs as [|tx rest]; [| left; discriminate].
    unfold finalize. cbn [withBloom withGasUsed Coinbase].
    destruct (Coinbase header =? 0) eqn:Hcb; cbn [negb].
    + apply Z.eqb_eq in Hcb. cbn.
      repeat (split; [first [reflexivity | exact Hcb] |]).
      eexists. split; reflexivity.
    + right. apply Z.eqb_neq. exact Hcb.
Qed.

(** C4. Under the snapshot contract, the governance reads leave the state
    content as it was on every return path (call succeeded, EVM error, ABI
    unpacking error, and the early return when packing fails):
    [processConsensusGasLimits] always, [processMasternodes] whenever it
    returns an error; when [processMasternodes] succeeds, its storage writes
    are applied to a state whose content is the original one, that is, after
    the revert.  The [signerAddress()] read of [VerifySeal] likewise leaves
    the parent's block state with its content, whatever [VerifySeal]
    returns. *)
Theorem governance_reads_revert (e : Nuclear) (chain : ChainReader) (header : Header)
    (st : StateDB) :
  RevertRestores ->
  content (processConsensusGasLimits e chain header st).2 = content st
  /\ (CalculateBlockState chain (ParentHash header)
        (wrap64 (big_Uint64 (Number header) - 1)) = Some st ->
      exists st',
        (verifySealState e chain header).2 = Some st'
        /\ content st' = content st)
  /\ match processMasternodes e chain header st with
     | (Some _, st') => content st' = content st
     | (None, st') =>
       exists (reverted : StateDB) (res : ApplyResult) (masternodes : list Address),
         content reverted = content st
         /\ ar_err res = None
         /\ UnpackAddresses (mnregAbi e) "enumerateActive" (ar_output res)
            = inl masternodes
         /\ st' =
            (let '(keep, written) :=
               storeMasternodes masternodes 1 ∅
                 (GetOrNewStateObject Nuclear_MasternodeList reverted) in
             CleanupStorage Nuclear_MasternodeList keep written)
     end.
Proof.
  intros Hlaw. split; [| split].
  - unfold processConsensusGasLimits.
    destruct (Pack _ _) as [callData|err]; [| reflexivity].
    match goal with
    | |- context [ApplyMessage ?evm ?msg ?gp _] =>
      pose proof (Hlaw st evm msg gp) as Hrev
    end.
    destruct (Snapshot st) as [rev_id s1]. cbn [fst snd] in Hrev.
    destruct (ApplyMessage _ _ _ s1) as [res s2]. cbn [snd] in Hrev.
    destruct (ar_err res); [exact Hrev |].
    destruct (UnpackGasLimits _ _ _) as [[cg xg]|err]; exact Hrev.
  - intros Hst. unfold verifySealState. cbv zeta. rewrite Hst.
    assert (Hkept : forall err : option error,
              exists st', (err, Some st).2 = Some st' /\ content st' = content st)
      by (intros err; exists st; split; reflexivity).
    destruct (IsBlacklisted st (Coinbase header)); [apply Hkept |].
    destruct (negb (length (Signature header) =? sealLen)%nat); [apply Hkept |].
    destruct (negb (ValidateSignatureValues _ _ _ _)); [apply Hkept |].
    destruct (Ecrecover _ _) as [pubkey|err]; [| apply Hkept].
    destruct (negb (_ =? Coinbase header)); [| apply Hkept].
    destruct (GetHeader chain _ _) as [parent|]; [| apply Hkept].
    destruct (0 <? GetCodeSize st (Coinbase header)); [| apply Hkept].
    destruct (Pack _ _) as [signerData|err]; [| apply Hkept].
    match goal with
    | |- context [ApplyMessage ?evm ?msg ?gp _] =>
      pose proof (Hlaw st evm msg gp) as Hrev
    end.
    destruct (Snapshot st) as [rev_id s1]. cbn [fst snd] in Hrev.
    destruct (ApplyMessage _ _ _ s1) as [res s2]. cbn [snd] in Hrev.
    assert (Hreverted : forall err : option error,
              exists st', (err, Some (RevertToSnapshot rev_id s2)).2 = Some st'
                          /\ content st' = content st)
      by (intros err; eexists; split; [reflexivity | exact Hrev]).
    destruct (ar_err res); [apply Hreverted |].
    destruct (UnpackAddress _ _ _) as [signer|err]; [| apply Hreverted].
    destruct (signer =? _); apply Hreverted.
  - unfold processMasternodes.
    destruct (Pack _ _) as [enumerateData|err]; [| reflexivity].
    match goal with
    | |- context [ApplyMessage ?evm ?msg ?gp _] =>
      pose proof (Hlaw st evm msg gp) as Hrev
    end.
    destruct (Snapshot st) as [rev_id s1]. cbn [fst snd] in Hrev.
    destruct (ApplyMessage _ _ _ s1) as [res s2]. cbn [snd] in Hrev.
    destruct (ar_err res) eqn:Herr; [exact Hrev |].
    destruct (UnpackAddresses _ _ _) as [masternodes|err] eqn:Hunpack;
      [| exact Hrev].
    destruct (storeMasternodes _ _ _ _) as [keep written] eqn:Hstore.
    exists (RevertToSnapshot rev_id s2), res, masternodes.
    split; [exact Hrev |]. split; [exact Herr |]. split; [exact Hunpack |].
    rewrite Hstore. reflexivity.
Qed.

(** The expected consensus transactions are the maximal consensus suffix. *)
Lemma splitConsensus_spec (txs : list Transaction) (n : nat) :
  (n = 0%nat -> txs = []) ->
  (n <= length txs)%nat ->
  Forall (fun t => IsConsensus t = true) (drop n txs) ->
  forall pre ctxs,
    splitConsensus txs n = (pre, ctxs) ->
    txs = pre ++ ctxs
    /\ Forall (fun t => IsConsensus t = true) ctxs
    /\ (forall t, last pre = Some t -> IsConsensus t = false).
Proof.
  induction n as [|i IH]; intros Hzero Hlen Hsuf pre ctxs Hsplit.
  - rewrite (Hzero eq_refl) in *. cbn in Hsplit. injection Hsplit as <- <-.
    split; [reflexivity |]. split; [constructor | discriminate].
  - cbn [splitConsensus] in Hsplit.
    destruct (txs !! i) as [tx|] eqn:Htx;
      [| apply lookup_ge_None in Htx; lia].
    destruct (IsConsensus tx) eqn:Hcons; cbn [negb] in Hsplit.
    + assert (Hdrop : drop i txs = tx :: drop (S i) txs)
        by (apply drop_S; exact Htx).
      assert (Hsuf' : Forall (fun t => IsConsensus t = true) (drop i txs))
        by (rewrite Hdrop; constructor; assumption).
      destruct i as [|j].
      * injection Hsplit as <- <-. rewrite take_0, drop_0 in *.
        split; [reflexivity |]. split; [exact Hsuf' | discriminate].
      * apply IH; [discriminate | lia | exact Hsuf' | exact Hsplit].
    + injection Hsplit as <- <-.
      split; [symmetry; apply take_drop |]. split; [exact Hsuf |].
      intros t Hlast. rewrite last_lookup, length_take in Hlast.
      rewrite Nat.min_l in Hlast by lia. cbn [Nat.pred] in Hlast.
      rewrite lookup_take_lt in Hlast by lia.
      rewrite Htx in Hlast. injection Hlast as <-. exact Hcons.
Qed.

Lemma splitConsensus_maximal (txs pre ctxs : list Transaction) :
  splitConsensus txs (length txs) = (pre, ctxs) ->
  txs = pre ++ ctxs
  /\ Forall (fun t => IsConsensus t = true) ctxs
  /\ (forall t, last pre = Some t -> IsConsensus t = false).
Proof.
  apply splitConsensus_spec.
  - intros Hlen. destruct txs; [reflexivity | discriminate].
  - lia.
  - rewrite drop_all. constructor.
Qed.

Lemma hashMismatch_spec (ntxs ctxs : list Transaction) :
  hashMismatch ntxs ctxs = true ->
  exists i tx ctx,
    ntxs !! i = Some tx /\ ctxs !! i = Some ctx /\ tx_Hash tx <> tx_Hash ctx.
Proof.
  revert ctxs. induction ntxs as [|tx ntxs IH]; intros [|ctx ctxs] Hm;
    try discriminate.
  cbn [hashMismatch] in Hm. destruct (tx_Hash tx =? tx_Hash ctx) eqn:Heq;
    cbn [negb] in Hm.
  - destruct (IH ctxs Hm) as (i & tx' & ctx' & H1' & H2' & H3').
    exists (S i), tx', ctx'. auto.
  - exists 0%nat, tx, ctx. apply Z.eqb_neq in Heq. auto.
Qed.

Lemma hashMismatch_complete (ntxs ctxs : list Transaction) (i : nat)
    (tx ctx : Transaction) :
  ntxs !! i = Some tx -> ctxs !! i = Some ctx -> tx_Hash tx <> tx_Hash ctx ->
  hashMismatch ntxs ctxs = true.
Proof.
  revert ctxs i. induction ntxs as [|tx0 ntxs IH]; intros [|ctx0 ctxs] i Hn Hc Hne;
    try discriminate.
  cbn [hashMismatch]. destruct (tx_Hash tx0 =? tx_Hash ctx0) eqn:Heq;
    cbn [negb]; [| reflexivity].
  destruct i as [|i].
  - cbn in Hn, Hc. injection Hn as ->. injection Hc as ->.
    apply Z.eqb_eq in Heq. contradiction.
  - cbn in Hn, Hc. exact (IH ctxs i Hn Hc Hne).
Qed.

(** C2, as amended.  [Finalize] splits off the maximal suffix of consensus
    transactions as the expected list and runs finalisation on the remaining
    prefix.  When finalisation returns an error, [Finalize] returns that
    error and no block.  When finalisation succeeds (its block holding at
    least the prefix), [Finalize] returns [ErrInvalidConsensusTx] exactly when
    the block's transactions past the prefix differ from the expected list in
    length or in the hash of some position, and otherwise returns the
    assembled block with no error. *)
Theorem Finalize_consensus_check (e : Nuclear) (chain : ChainReader) (header : Header)
    (state : option StateDB) (txs : list Transaction) (uncles : list Header)
    (receipts : list Receipt) (pre ctxs : list Transaction) (r : Finalized) :
  splitConsensus txs (length txs) = (pre, ctxs) ->
  finalize e chain header state pre receipts = Done r ->
  (txs = pre ++ ctxs
   /\ Forall (fun t => IsConsensus t = true) ctxs
   /\ (forall t, last pre = Some t -> IsConsensus t = false))
  /\ (forall err, f_err r = Some err ->
      Finalize e chain header state txs uncles receipts = Done (rejected r err))
  /\ (f_err r = None ->
      forall b, f_block r = Some b ->
      (length pre <= length (Transactions b))%nat ->
      let ntxs := drop (length pre) (Transactions b) in
      (consensusTxsDiffer ntxs ctxs ->
       Finalize e chain header state txs uncles receipts
       = Done (rejected r ErrInvalidConsensusTx))
      /\ (~ consensusTxsDiffer ntxs ctxs ->
          Finalize e chain header state txs uncles receipts = Done r)).
Proof.
  intros Hsplit Hfin. split; [exact (splitConsensus_maximal _ _ _ Hsplit) |].
  unfold Finalize. rewrite Hsplit, Hfin. split.
  - intros err Herr. rewrite Herr. reflexivity.
  - intros Hok b Hb Hlen. rewrite Hok, Hb.
    assert (Hltb : (length (Transactions b) <? length pre)%nat = false)
      by (apply Nat.ltb_ge; exact Hlen).
    rewrite Hltb. set (ntxs := drop (length pre) (Transactions b)).
    destruct (length ntxs =? length ctxs)%nat eqn:Hcount; cbn [negb].
    + destruct (hashMismatch ntxs ctxs) eqn:Hm.
      * split; [reflexivity |]. intros Hsame. exfalso. apply Hsame.
        right. exact (hashMismatch_spec _ _ Hm).
      * split; [| reflexivity]. intros [Hne | (i & tx & ctx & Hn & Hc & Hne)].
        -- apply Nat.eqb_eq in Hcount. contradiction.
        -- rewrite (hashMismatch_complete _ _ _ _ _ Hn Hc Hne) in Hm.
           discriminate.
    + split; [reflexivity |]. intros Hsame. exfalso. apply Hsame.
      left. apply Nat.eqb_neq. exact Hcount.
Qed.

End FinalizeFacts.

(** Worked example for C9: in a world whose reward step would append a
    transaction and whose spork registry would change the gas limits, a
    header without coinbase gets its block from the given transaction alone. *)
Lemma finalize_zero_coinbase_witness :
  Coinbase demo_mining = 0
  /\ exists r,
      @finalize _ demo_rewarding_collab (@New demo_params) demo_rewarding_chain
        demo_mining (Some demo_empty_state) [demo_user_tx] [] = Done r
      /\ f_engine r = @New demo_params
      /\ f_state r = Some demo_empty_state
      /\ (Transactions <$> f_block r) = Some [demo_user_tx].
Proof.
  split; [reflexivity |].
  destruct (@finalize_zero_coinbase _ demo_rewarding_collab (@New demo_params)
              demo_rewarding_chain demo_mining (Some demo_empty_state)
              [demo_user_tx] [] eq_refl)
    as (r & Hr & _ & He & Hs & _ & _ & Hb & _).
  exists r. split; [exact Hr |]. split; [exact He |]. split; [exact Hs |].
  rewrite Hb. reflexivity.
Defined.

(** Worked example for C10: without parent state, rebuilding a block with one
    transaction panics, and rebuilding an empty block without coinbase
    succeeds on the nil state. *)
Lemma recreateBlock_ancestor_check_unreachable_witness :
  @recreateBlock _ demo_rewarding_collab (@New demo_params) demo_rewarding_chain
    demo_mining [demo_user_tx] = Panic
  /\ exists r,
      @recreateBlock _ demo_rewarding_collab (@New demo_params) demo_rewarding_chain
        demo_mining [] = Done r
      /\ rc_err r = None /\ rc_site r = AtEnd.
Proof.
  split; [reflexivity |].
  destruct (@recreateBlock_ancestor_check_unreachable _ demo_rewarding_collab
              (@New demo_params) demo_rewarding_chain demo_mining [])
    as [_ Hnil].
  specialize (Hnil eq_refl).
  destruct (@recreateBlock _ demo_rewarding_collab (@New demo_params)
              demo_rewarding_chain demo_mining []) as [r|].
  - exists r. destruct Hnil as (_ & _ & Herr & Hsite & _).
    split; [reflexivity |]. split; assumption.
  - exfalso. destruct Hnil as [Hn | Hn]; apply Hn; reflexivity.
Defined.

(** The journaled demo state honours the snapshot contract. *)
Lemma demo_state_RevertRestores (script : Address -> ApplyResult) :
  @RevertRestores (demo_state script).
Proof.
  intros st evm msg gp. cbn.
  rewrite lookup_app_l by (rewrite length_app; cbn; lia).
  rewrite list_lookup_middle by reflexivity. reflexivity.
Qed.

(** Worked example for C4: the spork registry call dirties a slot of the
    registry and leaves a nested snapshot, yet the content is back; the
    masternode sync then stores addresses 7 and 9 and prunes the stale 3.
    In the delegating world the seal of block 5 is accepted through the
    [signerAddress()] call on the proposer contract, which writes a slot of
    that contract, and the parent's block state ends with its content. *)
Lemma governance_reads_revert_witness :
  @RevertRestores demo_rewarding_state
  /\ @content demo_rewarding_state
       (@processConsensusGasLimits _ demo_rewarding_collab (@New demo_params)
          demo_rewarding_chain demo_validator demo_governed_state).2
     = js_store demo_governed_state
  /\ (exists st',
        @processMasternodes _ demo_rewarding_collab (@New demo_params)
          demo_rewarding_chain demo_validator demo_governed_state = (None, st')
        /\ js_store st'
           = [(Nuclear_MasternodeList, 9, 1); (Nuclear_MasternodeList, 7, 1);
              (0x55, 1, 2)])
  /\ @VerifySeal _ demo_delegating_collab (@New demo_params)
       demo_delegating_chain demo_block_5_delegated = None
  /\ js_store
       (@ApplyMessage demo_delegating_state
          (createEVM (@New demo_params)
             (NewMessage (systemFaucet (@New demo_params)) 0xCC 0 0
                (callGas (@New demo_params)) 0 [Byte.x01] false)
             demo_delegating_chain demo_block_4)
          (NewMessage (systemFaucet (@New demo_params)) 0xCC 0 0
             (callGas (@New demo_params)) 0 [Byte.x01] false)
          (callGas (@New demo_params))
          (@Snapshot demo_delegating_state demo_delegate_code).2).2
     <> js_store demo_delegate_code
  /\ exists st',
       (@verifySealState _ demo_delegating_collab (@New demo_params)
          demo_delegating_chain demo_block_5_delegated).2 = Some st'
       /\ js_store st' = [(0xCC, -1, 100)].
Proof.
  split; [apply demo_state_RevertRestores |].
  split.
  - apply (@governance_reads_revert _ demo_rewarding_collab (@New demo_params)
             demo_rewarding_chain demo_validator demo_governed_state
             (demo_state_RevertRestores _)).
  - split.
    + eexists. split; [vm_compute; reflexivity |]. vm_compute. reflexivity.
    + split; [vm_compute; reflexivity |].
      split; [vm_compute; discriminate |].
      destruct (@governance_reads_revert _ demo_delegating_collab
                  (@New demo_params) demo_delegating_chain
                  demo_block_5_delegated demo_delegate_code
                  (demo_state_RevertRestores _)) as (_ & Hseal & _).
      exact (Hseal eq_refl).
Defined.

(** Worked example for C2: the importer hands over a user transaction
    followed by the consensus transaction the reward step re-derives
    (accepted), or followed by a forged one (rejected). *)
Lemma Finalize_consensus_check_witness :
  @finalize _ demo_rewarding_collab (@New demo_params) demo_rewarding_chain
    demo_validator (Some demo_governed_state) [demo_user_tx] [] = Done demo_finalized
  /\ f_err demo_finalized = None
  /\ @Finalize _ demo_rewarding_collab (@New demo_params) demo_rewarding_chain
       demo_validator (Some demo_governed_state)
       [demo_user_tx; demo_reward_tx] [] [] = Done demo_finalized
  /\ @Finalize _ demo_rewarding_collab (@New demo_params) demo_rewarding_chain
       demo_validator (Some demo_governed_state)
       [demo_user_tx; demo_forged_tx] [] []
     = Done (rejected demo_finalized ErrInvalidConsensusTx).
Proof.
  assert (Hfin : @finalize _ demo_rewarding_collab (@New demo_params)
                   demo_rewarding_chain demo_validator (Some demo_governed_state)
                   [demo_user_tx] [] = Done demo_finalized)
    by (vm_compute; reflexivity).
  split; [exact Hfin |]. split; [reflexivity |]. split.
  - destruct (@Finalize_consensus_check _ demo_rewarding_collab (@New demo_params)
                demo_rewarding_chain demo_validator (Some demo_governed_state)
                [demo_user_tx; demo_reward_tx] [] [] [demo_user_tx] [demo_reward_tx]
                demo_finalized eq_refl Hfin) as (_ & _ & Hok).
    destruct (Hok eq_refl _ eq_refl) as [_ Hsame]; [cbn; lia |].
    apply Hsame. intros [Hlen | (i & tx & ctx & Hn & Hc & Hne)].
    + apply Hlen. reflexivity.
    + destruct i as [|[|i]]; cbn in Hn, Hc; try discriminate.
      injection Hn as <-. injection Hc as <-. apply Hne. reflexivity.
  - destruct (@Finalize_consensus_check _ demo_rewarding_collab (@New demo_params)
                demo_rewarding_chain demo_validator (Some demo_governed_state)
                [demo_user_tx; demo_forged_tx] [] [] [demo_user_tx] [demo_forged_tx]
                demo_finalized eq_refl Hfin) as (_ & _ & Hok).
    destruct (Hok eq_refl _ eq_refl) as [Hdiff _]; [cbn; lia |].
    apply Hdiff. right. exists 0%nat, demo_reward_tx, demo_forged_tx.
    split; [reflexivity |]. split; [reflexivity |]. discriminate.
Defined.

(** C2 as stated fails when finalisation itself fails.  Here the spork
    registry call errors inside the EVM: the finalised block holds exactly
    the prefix, so its transactions past the prefix equal the (empty)
    expected list, yet [Finalize] returns the EVM error and no block. *)
Lemma Finalize_claim_counterexample :
  splitConsensus [demo_user_tx] 1 = ([demo_user_tx], [])
  /\ match @finalize _ demo_failing_collab (@New demo_params) demo_failing_chain
             demo_validator (Some demo_governed_state) [demo_user_tx] [] with
     | Done r => (drop 1 <$> (Transactions <$> f_block r)) = Some []
     | Panic => False
     end
  /\ match @Finalize _ demo_failing_collab (@New demo_params) demo_failing_chain
             demo_validator (Some demo_governed_state) [demo_user_tx] [] [] with
     | Done out => f_block out = None /\ f_err out = Some (ErrExternal 5)
     | Panic => False
     end.
Proof.
  split; [reflexivity |]. split.
  - vm_compute. reflexivity.
  - vm_compute. split; reflexivity.
Qed.

(** ** Header verification on the demo chain *)

(** Worked example for C5: block 5 keeps its parent's gas limit and is
    accepted; the variant one million above it is rejected with the
    gas-limit-bound error (limit 8000000 / 1024 = 7812). *)
Lemma VerifyHeader_gas_limit_bound_witness :
  Z.abs (GasLimit demo_block_5 - GasLimit demo_block_4) < 7812
  /\ @VerifyHeader demo_params _ demo_plain_collab (@New demo_params) demo_chain_4
       demo_block_5_wide false (fun _ => 1000)
     = mkVerifyResult (Some (ErrGasLimitBound 9000000 8000000 7812))
         (@New demo_params) [].
Proof.
  split.
  - destruct (@VerifyHeader_gas_limit_bound demo_params _ demo_plain_collab
                (@New demo_params) demo_chain_4 demo_block_5 false
                (fun _ => 1000) demo_block_4)
      as [Hacc _];
      [reflexivity | discriminate | split; [discriminate | reflexivity]
      | reflexivity | reflexivity |].
    apply Hacc. vm_compute. reflexivity.
  - destruct (@VerifyHeader_gas_limit_bound demo_params _ demo_plain_collab
                (@New demo_params) demo_chain_4 demo_block_5_wide false
                (fun _ => 1000) demo_block_4)
      as [_ Hrej];
      [reflexivity | discriminate | split; [discriminate | reflexivity]
      | reflexivity | reflexivity |].
    destruct Hrej as [_ Hbound]; [discriminate |].
    apply Hbound; first [reflexivity | discriminate].
Defined.

(** C5 as stated fails for the child of the migration block: block 2 is not
    a migration block, its gas limit is five times its parent's, and
    [VerifyHeader] accepts it, the bound being waived because the parent
    (block 1) is the migration block. *)
Lemma VerifyHeader_gas_limit_claim_counterexample :
  GetHeader demo_chain_1 (ParentHash demo_block_2)
    (wrap64 (big_Uint64 (Number demo_block_2) - 1)) = Some demo_block_1
  /\ @IsGen2Migration _ demo_plain_collab demo_block_2 = false
  /\ @IsGen2Migration _ demo_plain_collab demo_block_1 = true
  /\ vr_err (@VerifyHeader demo_params _ demo_plain_collab (@New demo_params)
               demo_chain_1 demo_block_2 false (fun _ => 1000)) = None
  /\ ~ Z.abs (GasLimit demo_block_2 - GasLimit demo_block_1)
       < GasLimit demo_block_1 / @GasLimitBoundDivisor demo_params.
Proof.
  split; [reflexivity |]. split; [reflexivity |]. split; [reflexivity |].
  split; [vm_compute; reflexivity |].
  vm_compute. intros Hlt. discriminate Hlt.
Qed.

(** Worked example for C6: the signed block 5 goes through all four checks
    with [seal], and through the fork-hash check alone without it. *)
Lemma VerifyHeader_seal_stage_witness :
  vr_calls (@VerifyHeader demo_params _ demo_plain_collab (@New demo_params)
              demo_chain_4 demo_block_5_signed true (fun _ => 1000))
  = [CallVerifySeal; CallVerifyPoSHash; CallVerifyForkHashes; CallCheckDoS]
  /\ vr_calls (@VerifyHeader demo_params _ demo_plain_collab (@New demo_params)
                 demo_chain_4 demo_block_5_signed false (fun _ => 1000))
     = [CallVerifyForkHashes].
Proof.
  assert (Hunsealed :
            vr_calls (@VerifyHeader demo_params _ demo_plain_collab
                        (@New demo_params) demo_chain_4 demo_block_5_signed
                        false (fun _ => 1000))
            = [CallVerifyForkHashes])
    by (vm_compute; reflexivity).
  split; [| exact Hunsealed].
  destruct (@VerifyHeader_seal_stage demo_params _ demo_plain_collab
              (@New demo_params) demo_chain_4 demo_block_5_signed true
              (fun _ => 1000)) as (_ & _ & Hstage).
  rewrite (Hstage Hunsealed). vm_compute. reflexivity.
Defined.

(** C6 as stated fails for the fork-hash check: with [seal] false, block 5
    passes every earlier check, [VerifyForkHashes] is still invoked, and its
    error is what [VerifyHeader] returns. *)
Lemma VerifyHeader_seal_claim_counterexample :
  vr_calls (@VerifyHeader demo_params _ demo_forked_collab (@New demo_params)
              demo_chain_4 demo_block_5 false (fun _ => 1000))
  = [CallVerifyForkHashes]
  /\ vr_err (@VerifyHeader demo_params _ demo_forked_collab (@New demo_params)
               demo_chain_4 demo_block_5 false (fun _ => 1000))
     = Some (ErrExternal 77)
  /\ vr_err (@VerifyHeader demo_params _ demo_plain_collab (@New demo_params)
               demo_chain_4 demo_block_5 false (fun _ => 1000))
     = None.
Proof.
  split; [vm_compute; reflexivity |]. split; vm_compute; reflexivity.
Qed.

(** The seed scenario of the stake throttle: two headers of one proposer on
    one parent, observed one second apart, yield success and then
    [ErrDoSThrottle]. *)
Example checkDoS_double_sign_scenario :
  let first :=
    @checkDoS demo_params _ demo_plain_collab (@New demo_params) demo_stake_chain
      demo_stake_1 demo_stake_parent (fun _ => 1000) in
  first.1 = None
  /\ (@checkDoS demo_params _ demo_plain_collab first.2 demo_stake_chain
        demo_stake_2 demo_stake_parent (fun _ => 1001)).1
     = Some ErrDoSThrottle.
Proof. vm_compute. split; reflexivity. Qed.

(** * Further properties *)

(** ** DoS guard: table maintenance *)

Section DoSTable.
Context `{Params} `{Collaborators}.

Implicit Types (e : Nuclear) (chain : ChainReader) (header parent : Header)
  (now : nat -> Z).

(** X1. The first observation of a (coinbase, parentHash) key, when the
    old-fork rule does not fire, is never rejected and records (blockHash,
    now) under the key. *)
Theorem checkDoS_first_observation e chain header parent now :
  0 < StakeThrottle ->
  knownStakes e !! (Coinbase header, ParentHash header) = None ->
  ~ (Time parent < wrap64 (now 0%nat - OldForkPeriod)
     /\ wrap64 (now 0%nat - OldForkPeriod) < Time (CurrentHeader chain)) ->
  exists e',
    checkDoS e chain header parent now = (None, e')
    /\ knownStakes e' !! (Coinbase header, ParentHash header)
       = Some {| block := HeaderHash header; ts := now 1%nat |}.
Proof.
  intros Hpos Hnone Hfork. apply checkDoS_records; [exact Hpos | |].
  - destruct (Time parent <? _) eqn:Hp; [| reflexivity].
    destruct (_ <? Time (CurrentHeader chain)) eqn:Hc; [| reflexivity].
    exfalso. apply Hfork. split; apply Z.ltb_lt; assumption.
  - rewrite Hnone. exact I.
Qed.

(** X2. Whatever makes [checkDoS] reject, the error is [ErrDoSThrottle] and
    the engine (stake table, purge time) is exactly as before the call: a
    rejected header leaves no trace and does not trigger a purge. *)
Theorem checkDoS_rejection_leaves_no_trace e chain header parent now err e' :
  checkDoS e chain header parent now = (Some err, e') ->
  err = ErrDoSThrottle /\ e' = e.
Proof.
  unfold checkDoS. destruct (_ && _); [intros [= <- <-]; split; reflexivity |].
  destruct (LoadOrStore _ _ _) as [[prev ok] stakes].
  destruct (ok && _); [intros [= <- <-]; split; reflexivity |].
  destruct (nextKSPurge _ <? _); discriminate.
Qed.

(** The two shapes of the engine after a successful call. *)
Lemma checkDoS_success_shape e chain header parent now e' :
  checkDoS e chain header parent now = (None, e') ->
  let key := (Coinbase header, ParentHash header) in
  let stored :=
    <[key := {| block := HeaderHash header; ts := now 1%nat |}]> (knownStakes e) in
  (nextKSPurge e < now 1%nat
   /\ e' = withKnownStakes (purgeInactive (now 1%nat) stored)
             (withNextKSPurge (wrap64 (now 1%nat + StakeThrottle))
                (withKnownStakes stored e)))
  \/ (~ nextKSPurge e < now 1%nat /\ e' = withKnownStakes stored e).
Proof.
  unfold checkDoS. destruct (_ && _); [discriminate |].
  unfold LoadOrStore, Store.
  destruct (knownStakes e !! _) as [prev|] eqn:Hk; cbn [andb].
  - destruct (isActive prev _ && _); [discriminate |].
    cbn [nextKSPurge withKnownStakes knownStakes].
    destruct (nextKSPurge e <? now 1%nat) eqn:Hdue; intros [= <-].
    + left. split; [apply Z.ltb_lt; exact Hdue | reflexivity].
    + right. split; [apply Z.ltb_ge in Hdue; lia | reflexivity].
  - cbn [nextKSPurge withKnownStakes knownStakes].
    destruct (nextKSPurge e <? now 1%nat) eqn:Hdue; intros [= <-].
    + left. split; [apply Z.ltb_lt; exact Hdue | reflexivity].
    + right. split; [apply Z.ltb_ge in Hdue; lia | reflexivity].
Qed.

(** X3. A successful [checkDoS] never alters the entry of another key: such
    an entry is either kept as it is or purged; when no purge is due
    (nextKSPurge >= now) every other key is untouched and the purge time is
    unchanged.  The gas limits and the txhash cache are never touched. *)
Theorem checkDoS_other_keys e chain header parent now e' :
  checkDoS e chain header parent now = (None, e') ->
  (forall k v,
     k <> (Coinbase header, ParentHash header) ->
     knownStakes e' !! k = Some v -> knownStakes e !! k = Some v)
  /\ (~ nextKSPurge e < now 1%nat ->
      nextKSPurge e' = nextKSPurge e
      /\ forall k, k <> (Coinbase header, ParentHash header) ->
                   knownStakes e' !! k = knownStakes e !! k)
  /\ callGas e' = callGas e /\ xferGas e' = xferGas e
  /\ txhashMap e' = txhashMap e.
Proof.
  intros Hres.
  destruct (checkDoS_success_shape e chain header parent now e' Hres)
    as [[Hdue ->] | [Hnot ->]]; cbn.
  - split.
    + intros k v Hne Hk. unfold purgeInactive in Hk.
      apply map_lookup_filter_Some in Hk. destruct Hk as [Hk _].
      rewrite lookup_insert_ne in Hk by congruence. exact Hk.
    + split; [intros Hnot; contradiction |]. repeat split; reflexivity.
  - split.
    + intros k v Hne Hk. rewrite lookup_insert_ne in Hk by congruence. exact Hk.
    + split; [| repeat split; reflexivity].
      intros _. split; [reflexivity |].
      intros k Hne. apply lookup_insert_ne. congruence.
Qed.

(** X4. When a purge is due (nextKSPurge < now) and the call succeeds, the
    table afterwards holds only entries that are active at [now], every
    entry of another key that was inactive is gone, every one that was active
    is kept, and the next purge is scheduled at now + StakeThrottle (wrapped to
    64 bits). *)
Theorem checkDoS_purge e chain header parent now e' :
  checkDoS e chain header parent now = (None, e') ->
  nextKSPurge e < now 1%nat ->
  nextKSPurge e' = wrap64 (now 1%nat + StakeThrottle)
  /\ (forall k v, knownStakes e' !! k = Some v -> isActive v (now 1%nat) = true)
  /\ (forall k v,
        k <> (Coinbase header, ParentHash header) ->
        knownStakes e !! k = Some v ->
        knownStakes e' !! k
        = if isActive v (now 1%nat) then Some v else None).
Proof.
  intros Hres Hdue.
  destruct (checkDoS_success_shape e chain header parent now e' Hres)
    as [[_ ->] | [Hnot _]]; [| contradiction].
  cbn. split; [reflexivity |]. split.
  - intros k v Hk. unfold purgeInactive in Hk.
    apply map_lookup_filter_Some in Hk. destruct Hk as [_ Hact]. exact Hact.
  - intros k v Hne Hk.
    assert (Hstored :
              <[(Coinbase header, ParentHash header) :=
                  {| block := HeaderHash header; ts := now 1%nat |}]>
                (knownStakes e) !! k = Some v)
      by (rewrite lookup_insert_ne by congruence; exact Hk).
    destruct (isActive v (now 1%nat)) eqn:Hact.
    + apply purgeInactive_keeps; assumption.
    + eapply purgeInactive_drops; eassumption.
Qed.

(** X5. An entry whose timestamp lies ahead of the clock (the clock was set
    back) counts as expired: the unsigned difference wraps around, so unless
    the gap is within [StakeThrottle] of 2^64 the entry is not active. *)
Theorem isActive_future_timestamp (ksv : KnownStakeValue) (now : Z) :
  0 <= now < ts ksv -> ts ksv < 2 ^ 64 ->
  StakeThrottle <= 2 ^ 64 - (ts ksv - now) ->
  isActive ksv now = false.
Proof.
  intros Hnow Hts Hst. unfold isActive. apply Z.ltb_ge.
  unfold wrap64.
  replace (now - ts ksv) with (2 ^ 64 - (ts ksv - now) + (-1) * 2 ^ 64) by lia.
  rewrite Z.mod_add by lia. rewrite Z.mod_small by lia. exact Hst.
Qed.

End DoSTable.

Lemma checkDoS_first_observation_witness :
  exists e',
    @checkDoS demo_params _ demo_plain_collab (@New demo_params) demo_stake_chain
      demo_stake_1 demo_stake_parent (fun _ => 1000) = (None, e')
    /\ knownStakes e' !! (0xAA, 77) = Some {| block := 65536; ts := 1000 |}.
Proof.
  apply (@checkDoS_first_observation demo_params _ demo_plain_collab
           (@New demo_params) demo_stake_chain demo_stake_1 demo_stake_parent
           (fun _ => 1000)); [reflexivity | reflexivity |].
  intros [Hp _]. vm_compute in Hp. discriminate.
Defined.

Lemma checkDoS_rejection_leaves_no_trace_witness :
  @checkDoS demo_params _ demo_plain_collab demo_stake_engine demo_stake_chain
    demo_stake_2 demo_stake_parent (fun _ => 1010)
  = (Some ErrDoSThrottle, demo_stake_engine)
  /\ ErrDoSThrottle = ErrDoSThrottle /\ demo_stake_engine = demo_stake_engine.
Proof.
  assert (Hres : @checkDoS demo_params _ demo_plain_collab demo_stake_engine
                   demo_stake_chain demo_stake_2 demo_stake_parent (fun _ => 1010)
                 = (Some ErrDoSThrottle, demo_stake_engine))
    by (vm_compute; reflexivity).
  split; [exact Hres |].
  exact (@checkDoS_rejection_leaves_no_trace demo_params _ demo_plain_collab
           _ _ _ _ _ _ _ Hres).
Defined.

(** The header of 0xAA is seen again at time 1010 with a purge due: the stake
    of 0xCC from time 10 is dropped, the next purge is set to 1070. *)
Lemma checkDoS_purge_witness :
  let after :=
    (@checkDoS demo_params _ demo_plain_collab demo_two_stakes demo_stake_chain
       demo_stake_1 demo_stake_parent (fun _ => 1010)).2 in
  nextKSPurge after = 1070 /\ knownStakes after !! (0xCC, 5) = None.
Proof.
  cbv zeta.
  destruct (@checkDoS demo_params _ demo_plain_collab demo_two_stakes
              demo_stake_chain demo_stake_1 demo_stake_parent (fun _ => 1010))
    as [[err|] e'] eqn:Hres; [vm_compute in Hres; discriminate |].
  destruct (@checkDoS_purge demo_params _ demo_plain_collab demo_two_stakes
              demo_stake_chain demo_stake_1 demo_stake_parent (fun _ => 1010)
              e' Hres) as (Hnext & _ & Hother); [reflexivity |].
  split; [exact Hnext |].
  exact (Hother (0xCC, 5) {| block := 1; ts := 10 |} ltac:(discriminate) eq_refl).
Defined.

(** With purge time 2000 ahead of the clock, the same call keeps the old
    stake of 0xCC. *)
Lemma checkDoS_other_keys_witness :
  let before := withNextKSPurge 2000 demo_two_stakes in
  let after :=
    (@checkDoS demo_params _ demo_plain_collab before demo_stake_chain
       demo_stake_1 demo_stake_parent (fun _ => 1010)).2 in
  nextKSPurge after = 2000
  /\ knownStakes after !! (0xCC, 5) = Some {| block := 1; ts := 10 |}.
Proof.
  cbv zeta.
  destruct (@checkDoS demo_params _ demo_plain_collab
              (withNextKSPurge 2000 demo_two_stakes)
              demo_stake_chain demo_stake_1 demo_stake_parent (fun _ => 1010))
    as [[err|] e'] eqn:Hres; [vm_compute in Hres; discriminate |].
  destruct (@checkDoS_other_keys demo_params _ demo_plain_collab
              (withNextKSPurge 2000 demo_two_stakes)
              demo_stake_chain demo_stake_1 demo_stake_parent (fun _ => 1010)
              e' Hres) as (_ & Hquiet & _).
  destruct Hquiet as [Hnext Hkeys]; [vm_compute; discriminate |].
  split; [exact Hnext |].
  exact (eq_trans (Hkeys (0xCC, 5) ltac:(discriminate)) eq_refl).
Defined.

(** A stake stamped at 1000 seen by a clock that reads 990. *)
Lemma isActive_future_timestamp_witness :
  @isActive demo_params {| block := 65536; ts := 1000 |} 990 = false.
Proof.
  apply (@isActive_future_timestamp demo_params); cbn; [lia | lia |].
  vm_compute. discriminate.
Defined.

(** ** Header verification: rejections, accepted headers, engine frame *)

(** Case analysis on the outermost test of a function body [body = r]. *)
Ltac result_case H :=
  match goal with
  | |- (if ?c then _ else _) = _ -> _ => destruct c eqn:H
  | |- (match ?x with Some _ => _ | None => _ end) = _ -> _ => destruct x eqn:H
  end.

Section HeaderFacts.
Context `{Params} `{Collaborators}.

(** X6. The two checks that need no parent come first, whatever the chain,
    the seal flag and the clock: a non-migration header with more than
    [MaximumExtraDataSize] bytes of extra data is rejected as too long, and a
    migration header whose coinbase is not the migration contract is rejected
    as an invalid migration, even with oversized extra data.  Neither
    rejection invokes a seal-stage check or changes the engine. *)
Theorem VerifyHeader_parentless_rejections (e : Nuclear) (chain : ChainReader)
    (header : Header) (seal : bool) (now : nat -> Z) :
  (IsGen2Migration header = false ->
   MaximumExtraDataSize < Z.of_nat (length (Extra header)) ->
   VerifyHeader e chain header seal now
   = mkVerifyResult
       (Some (ErrExtraDataTooLong (Z.of_nat (length (Extra header)))
                MaximumExtraDataSize)) e [])
  /\ (IsGen2Migration header = true ->
      Coinbase header <> Nuclear_MigrationContract ->
      VerifyHeader e chain header seal now
      = mkVerifyResult (Some ErrInvalidMigration) e []).
Proof.
  split.
  - intros Hmig Hlen. unfold VerifyHeader. rewrite Hmig.
    apply Z.ltb_lt in Hlen. rewrite Hlen. reflexivity.
  - intros Hmig Hcb. unfold VerifyHeader. rewrite Hmig.
    rewrite andb_false_r. apply Z.eqb_neq in Hcb. rewrite Hcb. reflexivity.
Qed.

(** X7. A header whose parent is unknown to the chain, once past the
    extra-data and migration checks: with a non-zero number it is rejected
    with [ErrUnknownAncestor]; with number zero it is accepted at once, with
    no time, difficulty, gas or seal check, whatever the seal flag. *)
Theorem VerifyHeader_unknown_parent (e : Nuclear) (chain : ChainReader)
    (header : Header) (seal : bool) (now : nat -> Z) :
  GetHeader chain (ParentHash header) (wrap64 (big_Uint64 (Number header) - 1))
    = None ->
  (IsGen2Migration header = false ->
   Z.of_nat (length (Extra header)) <= MaximumExtraDataSize) ->
  (IsGen2Migration header = true -> Coinbase header = Nuclear_MigrationContract) ->
  VerifyHeader e chain header seal now
  = mkVerifyResult
      (if Number header =? 0 then None else Some ErrUnknownAncestor) e [].
Proof.
  intros Hparent Hextra Hcb. unfold VerifyHeader. rewrite Hparent.
  destruct (IsGen2Migration header) eqn:Hmig; cbn [negb andb].
  - rewrite andb_false_r, (Hcb eq_refl), Z.eqb_refl. cbn [negb].
    destruct (Number header =? 0); reflexivity.
  - specialize (Hextra eq_refl). apply Z.ltb_ge in Hextra.
    rewrite Hextra. cbn [andb].
    destruct (Number header =? 0); reflexivity.
Qed.

(** X8. What an accepted header with a known parent satisfies: the time
    check passed, [MixDigest] is the computed modifier, [Difficulty] is what
    [CalcDifficulty] gives for the header's time, the gas limit is between
    [MinGasLimit] and 2^63-1, the number is the parent's plus one; a
    non-migration header also has extra data within [MaximumExtraDataSize]
    and gas used within its gas limit, and a migration header has the
    migration contract as coinbase. *)
Theorem VerifyHeader_accepted (e : Nuclear) (chain : ChainReader)
    (header : Header) (seal : bool) (now : nat -> Z) (parent : Header) :
  GetHeader chain (ParentHash header) (wrap64 (big_Uint64 (Number header) - 1))
    = Some parent ->
  vr_err (VerifyHeader e chain header seal now) = None ->
  checkTime e header (calcTimeTarget e chain parent) = None
  /\ MixDigest header = calcPoSModifier e chain (Time header) parent
  /\ Difficulty header = CalcDifficulty e chain (Time header) parent
  /\ MinGasLimit <= GasLimit header <= 2 ^ 63 - 1
  /\ Number header = Number parent + 1
  /\ (IsGen2Migration header = false ->
      Z.of_nat (length (Extra header)) <= MaximumExtraDataSize
      /\ GasUsed header <= GasLimit header)
  /\ (IsGen2Migration header = true ->
      Coinbase header = Nuclear_MigrationContract).
Proof.
  intros Hparent. unfold VerifyHeader. rewrite Hparent. cbv zeta.
  verify_step Hextra; [discriminate |].
  verify_step Hmig; [discriminate |].
  verify_step Htime; [discriminate |].
  verify_step Hmod; [discriminate |].
  verify_step Hdiff; [discriminate |].
  verify_step Hcap; [discriminate |].
  verify_step Hused; [discriminate |].
  verify_step Hbound; [discriminate |].
  verify_step Hmin; [discriminate |].
  verify_step Hnum; [discriminate |].
  intros _.
  apply negb_false_iff, Z.eqb_eq in Hmod, Hdiff, Hnum.
  apply Z.ltb_ge in Hcap, Hmin.
  split; [reflexivity |]. split; [exact Hmod |]. split; [exact Hdiff |].
  split; [change (2 ^ 63 - 1) with 0x7fffffffffffffff; lia |].
  split; [lia |]. split.
  - intros Hm. rewrite Hm in Hextra, Hused. cbn [negb] in Hextra, Hused.
    rewrite andb_true_r in Hextra, Hused.
    apply Z.ltb_ge in Hextra, Hused. split; assumption.
  - intros Hm. rewrite Hm in Hmig. cbn [andb] in Hmig.
    apply negb_false_iff, Z.eqb_eq in Hmig. exact Hmig.
Qed.

(** X9. [VerifyHeader] changes the engine only through an accepting DoS
    guard: whenever the header is rejected, or [seal] is false, or the header
    is already in the canonical store, the engine afterwards is the engine
    before. *)
Theorem VerifyHeader_engine_frame (e : Nuclear) (chain : ChainReader)
    (header : Header) (seal : bool) (now : nat -> Z) :
  vr_err (VerifyHeader e chain header seal now) <> None
  \/ seal = false
  \/ GetHeader chain (HeaderHash header) (big_Uint64 (Number header)) <> None ->
  vr_engine (VerifyHeader e chain header seal now) = e.
Proof.
  remember (VerifyHeader e chain header seal now) as r eqn:Hr.
  symmetry in Hr. revert Hr. unfold VerifyHeader. cbv zeta.
  result_case Hextra; [intros <- _; reflexivity |].
  result_case Hmig; [intros <- _; reflexivity |].
  result_case Hparent; cycle 1.
  { destruct (negb (Number header =? 0)); intros <- _; reflexivity. }
  result_case Htime; [intros <- _; reflexivity |].
  result_case Hmod; [intros <- _; reflexivity |].
  result_case Hdiff; [intros <- _; reflexivity |].
  result_case Hcap; [intros <- _; reflexivity |].
  result_case Hused; [intros <- _; reflexivity |].
  result_case Hbound; [intros <- _; reflexivity |].
  result_case Hmin; [intros <- _; reflexivity |].
  result_case Hnum; [intros <- _; reflexivity |].
  destruct (if seal then _ else _) as [[serr|] calls];
    [intros <- _; reflexivity |].
  destruct (VerifyForkHashes chain header false);
    [intros <- _; reflexivity |].
  destruct (seal && _) eqn:Hguard; [| intros <- _; reflexivity].
  apply andb_true_iff in Hguard. destruct Hguard as [Hseal Hstore].
  apply bool_decide_eq_true in Hstore.
  destruct (checkDoS e chain header _ now) as [[derr|] e'] eqn:Hdos.
  - intros <- _. cbn.
    exact (proj2 (checkDoS_reject_unchanged _ _ _ _ _ _ _ Hdos)).
  - intros <- [Hrej | [Hunsealed | Hknown]]; cbn in *.
    + contradiction.
    + congruence.
    + contradiction.
Qed.

(** X10. A header accepted with [seal] set passed the seal check, the PoS
    hash check and the fork-hash check; if it is not yet in the canonical
    store it also passed the DoS guard, and the engine afterwards is the one
    the guard left (with the header's stake recorded). *)
Theorem VerifyHeader_sealed_accepted (e : Nuclear) (chain : ChainReader)
    (header : Header) (now : nat -> Z) (parent : Header) :
  GetHeader chain (ParentHash header) (wrap64 (big_Uint64 (Number header) - 1))
    = Some parent ->
  vr_err (VerifyHeader e chain header true now) = None ->
  VerifySeal e chain header = None
  /\ verifyPoSHash e chain header = None
  /\ VerifyForkHashes chain header false = None
  /\ (GetHeader chain (HeaderHash header) (big_Uint64 (Number header)) = None ->
      checkDoS e chain header parent now
      = (None, vr_engine (VerifyHeader e chain header true now))).
Proof.
  intros Hparent.
  remember (VerifyHeader e chain header true now) as r eqn:Hr.
  symmetry in Hr. revert Hr. unfold VerifyHeader. rewrite Hparent. cbv zeta.
  result_case Hextra; [intros <-; discriminate |].
  result_case Hmig; [intros <-; discriminate |].
  result_case Htime; [intros <-; discriminate |].
  result_case Hmod; [intros <-; discriminate |].
  result_case Hdiff; [intros <-; discriminate |].
  result_case Hcap; [intros <-; discriminate |].
  result_case Hused; [intros <-; discriminate |].
  result_case Hbound; [intros <-; discriminate |].
  result_case Hmin; [intros <-; discriminate |].
  result_case Hnum; [intros <-; discriminate |].
  destruct (VerifySeal e chain header); [intros <-; discriminate |].
  destruct (verifyPoSHash e chain header); [intros <-; discriminate |].
  destruct (VerifyForkHashes chain header false); [intros <-; discriminate |].
  cbn [andb].
  destruct (GetHeader chain (HeaderHash header) _) as [known|] eqn:Hknown.
  - rewrite bool_decide_eq_false_2 by discriminate.
    intros <- _. repeat (split; [reflexivity |]). discriminate.
  - rewrite bool_decide_eq_true_2 by reflexivity.
    destruct (checkDoS e chain header parent now) as [derr e'].
    intros <-. cbn. intros ->. repeat (split; [reflexivity |]). reflexivity.
Qed.

End HeaderFacts.

Lemma VerifyHeader_parentless_rejections_witness :
  @VerifyHeader demo_params _ demo_plain_collab (@New demo_params) demo_chain_4
    demo_block_5_long_extra true (fun _ => 1000)
  = mkVerifyResult (Some (ErrExtraDataTooLong 33 32)) (@New demo_params) []
  /\ @VerifyHeader demo_params _ demo_plain_collab (@New demo_params) demo_chain_4
       demo_block_1_foreign true (fun _ => 1000)
     = mkVerifyResult (Some ErrInvalidMigration) (@New demo_params) [].
Proof.
  split.
  - apply (@VerifyHeader_parentless_rejections demo_params _ demo_plain_collab);
      [reflexivity | reflexivity].
  - apply (@VerifyHeader_parentless_rejections demo_params _ demo_plain_collab);
      [reflexivity | discriminate].
Defined.

Lemma VerifyHeader_unknown_parent_witness :
  @VerifyHeader demo_params _ demo_plain_collab (@New demo_params) demo_chain_4
    demo_orphan_5 true (fun _ => 1000)
  = mkVerifyResult (Some ErrUnknownAncestor) (@New demo_params) []
  /\ @VerifyHeader demo_params _ demo_plain_collab (@New demo_params) demo_chain_4
       demo_orphan_0 true (fun _ => 1000)
     = mkVerifyResult None (@New demo_params) [].
Proof.
  split.
  - apply (@VerifyHeader_unknown_parent demo_params _ demo_plain_collab
             (@New demo_params) demo_chain_4 demo_orphan_5 true (fun _ => 1000));
      [reflexivity | intros _; discriminate | discriminate].
  - apply (@VerifyHeader_unknown_parent demo_params _ demo_plain_collab
             (@New demo_params) demo_chain_4 demo_orphan_0 true (fun _ => 1000));
      [reflexivity | intros _; discriminate | discriminate].
Defined.

Lemma VerifyHeader_accepted_witness :
  vr_err (@VerifyHeader demo_params _ demo_plain_collab (@New demo_params)
            demo_chain_4 demo_block_5_signed true (fun _ => 1000)) = None
  /\ Number demo_block_5_signed = Number demo_block_4 + 1
  /\ Difficulty demo_block_5_signed
     = @CalcDifficulty _ demo_plain_collab (@New demo_params) demo_chain_4 1000
         demo_block_4.
Proof.
  assert (Hacc : vr_err (@VerifyHeader demo_params _ demo_plain_collab
                           (@New demo_params) demo_chain_4 demo_block_5_signed
                           true (fun _ => 1000)) = None)
    by (vm_compute; reflexivity).
  split; [exact Hacc |].
  destruct (@VerifyHeader_accepted demo_params _ demo_plain_collab
              (@New demo_params) demo_chain_4 demo_block_5_signed true
              (fun _ => 1000) demo_block_4 eq_refl Hacc)
    as (_ & _ & Hdiff & _ & Hnum & _).
  split; [exact Hnum | exact Hdiff].
Defined.

(** Block 5 passes the seal checks and fails the fork-hash check: the
    engine, stake table included, is as before. *)
Lemma VerifyHeader_engine_frame_witness :
  vr_err (@VerifyHeader demo_params _ demo_forked_collab demo_two_stakes
            demo_chain_4 demo_block_5_signed true (fun _ => 1000))
  = Some (ErrExternal 77)
  /\ vr_engine (@VerifyHeader demo_params _ demo_forked_collab demo_two_stakes
                  demo_chain_4 demo_block_5_signed true (fun _ => 1000))
     = demo_two_stakes.
Proof.
  assert (Hrej : vr_err (@VerifyHeader demo_params _ demo_forked_collab
                           demo_two_stakes demo_chain_4 demo_block_5_signed
                           true (fun _ => 1000)) = Some (ErrExternal 77))
    by (vm_compute; reflexivity).
  split; [exact Hrej |].
  apply (@VerifyHeader_engine_frame demo_params _ demo_forked_collab).
  left. rewrite Hrej. discriminate.
Defined.

Lemma VerifyHeader_sealed_accepted_witness :
  vr_err (@VerifyHeader demo_params _ demo_plain_collab (@New demo_params)
            demo_chain_4 demo_block_5_signed true (fun _ => 1000)) = None
  /\ @VerifySeal _ demo_plain_collab (@New demo_params) demo_chain_4
       demo_block_5_signed = None.
Proof.
  assert (Hacc : vr_err (@VerifyHeader demo_params _ demo_plain_collab
                           (@New demo_params) demo_chain_4 demo_block_5_signed
                           true (fun _ => 1000)) = None)
    by (vm_compute; reflexivity).
  split; [exact Hacc |].
  exact (proj1 (@VerifyHeader_sealed_accepted demo_params _ demo_plain_collab
                  (@New demo_params) demo_chain_4 demo_block_5_signed
                  (fun _ => 1000) demo_block_4 eq_refl Hacc)).
Defined.

(** ** Seal verification: what an accepted seal means *)

Section SealSoundness.
Context `{Params} `{Collaborators}.

(** X11. [VerifySeal] accepts only if: the parent state exists and does not
    blacklist the coinbase, the signature has 65 bytes with valid (r, s, v),
    a public key is recovered from the signature hash, and the address
    derived from it is the coinbase, or else the parent header is known, the
    coinbase has code, and [signerAddress()] called on it (from the system
    faucet, with the call gas, under a parent-header context) returned without
    error and unpacks to that address. *)
Theorem VerifySeal_accepts_only (e : Nuclear) (chain : ChainReader) (header : Header) :
  VerifySeal e chain header = None ->
  let parent_number := wrap64 (big_Uint64 (Number header) - 1) in
  let sig := Signature header in
  exists blockst pubkey,
    CalculateBlockState chain (ParentHash header) parent_number = Some blockst
    /\ IsBlacklisted blockst (Coinbase header) = false
    /\ length sig = 65%nat
    /\ ValidateSignatureValues (nth 64 sig Byte.x00) (SetBytes (take 32 sig))
         (SetBytes (take 32 (drop 32 sig))) true = true
    /\ Ecrecover (SignatureHash header) sig = inl pubkey
    /\ let addr := SetBytes (drop 12 (Keccak256 (drop 1 pubkey))) in
       (addr = Coinbase header
        \/ exists parent signerData,
             GetHeader chain (ParentHash header) parent_number = Some parent
             /\ 0 < GetCodeSize blockst (Coinbase header)
             /\ Pack (dposAbi e) "signerAddress" = inl signerData
             /\ let msg :=
                  NewMessage (systemFaucet e) (Coinbase header) 0 0 (callGas e) 0
                    signerData false in
                let res :=
                  (ApplyMessage (createEVM e msg chain parent) msg (callGas e)
                     (Snapshot blockst).2).1 in
                ar_err res = None
                /\ UnpackAddress (dposAbi e) "signerAddress" (ar_output res)
                   = inl addr).
Proof.
  unfold VerifySeal, verifySealState. cbv zeta.
  destruct (CalculateBlockState _ _ _) as [blockst|]; [| discriminate].
  destruct (IsBlacklisted _ _) eqn:Hbl; [discriminate |].
  destruct (length (Signature header) =? sealLen)%nat eqn:Hlen;
    cbn [negb]; [| discriminate].
  destruct (ValidateSignatureValues _ _ _ _) eqn:Hval; cbn [negb]; [| discriminate].
  destruct (Ecrecover _ _) as [pubkey|err] eqn:Hrec; [| discriminate].
  intros Hacc. exists blockst, pubkey.
  split; [reflexivity |]. split; [exact Hbl |].
  split; [apply Nat.eqb_eq; exact Hlen |]. split; [reflexivity |].
  split; [reflexivity |].
  destruct (SetBytes _ =? Coinbase header) eqn:Haddr; cbn [negb] in Hacc.
  - left. apply Z.eqb_eq. exact Haddr.
  - right.
    destruct (GetHeader _ _ _) as [parent|]; [| discriminate].
    destruct (0 <? GetCodeSize _ _) eqn:Hcode; [| discriminate].
    destruct (Pack _ _) as [signerData|perr]; [| discriminate].
    exists parent, signerData.
    split; [reflexivity |]. split; [apply Z.ltb_lt; exact Hcode |].
    split; [reflexivity |].
    destruct (Snapshot blockst) as [rev_id st1]. cbn [snd].
    destruct (ApplyMessage _ _ _ st1) as [res st2]. cbn [fst].
    destruct (ar_err res); [discriminate |].
    destruct (UnpackAddress _ _ _) as [signer|uerr]; [| discriminate].
    destruct (signer =? _) eqn:Hsigner; [| discriminate].
    apply Z.eqb_eq in Hsigner. subst signer. split; reflexivity.
Qed.

(** X12. Once the signature is well-formed and a key is recovered: if the
    derived address is the coinbase the seal is accepted without consulting
    the parent header or any contract; if it differs, a missing parent header
    gives [ErrUnknownAncestor], and a coinbase without code gives
    [errInvalidSig].  A failed recovery surfaces its own error. *)
Theorem VerifySeal_recovered (e : Nuclear) (chain : ChainReader) (header : Header)
    (blockst : StateDB) :
  let parent_number := wrap64 (big_Uint64 (Number header) - 1) in
  let sig := Signature header in
  CalculateBlockState chain (ParentHash header) parent_number = Some blockst ->
  IsBlacklisted blockst (Coinbase header) = false ->
  length sig = 65%nat ->
  ValidateSignatureValues (nth 64 sig Byte.x00) (SetBytes (take 32 sig))
    (SetBytes (take 32 (drop 32 sig))) true = true ->
  (forall err, Ecrecover (SignatureHash header) sig = inr err ->
               VerifySeal e chain header = Some err)
  /\ (forall pubkey,
        Ecrecover (SignatureHash header) sig = inl pubkey ->
        let addr := SetBytes (drop 12 (Keccak256 (drop 1 pubkey))) in
        (addr = Coinbase header -> VerifySeal e chain header = None)
        /\ (addr <> Coinbase header ->
            GetHeader chain (ParentHash header) parent_number = None ->
            VerifySeal e chain header = Some ErrUnknownAncestor)
        /\ (addr <> Coinbase header ->
            GetHeader chain (ParentHash header) parent_number <> None ->
            GetCodeSize blockst (Coinbase header) <= 0 ->
            VerifySeal e chain header = Some errInvalidSig)).
Proof.
  intros parent_number sig Hst Hbl Hlen Hval. subst parent_number sig.
  unfold VerifySeal, verifySealState. cbv zeta. rewrite Hst, Hbl.
  unfold sealLen. rewrite Hlen, Nat.eqb_refl. cbn [negb]. rewrite Hval. cbn [negb].
  split.
  - intros err Hrec. rewrite Hrec. reflexivity.
  - intros pubkey Hrec. rewrite Hrec. split; [| split].
    + intros Haddr. apply Z.eqb_eq in Haddr. rewrite Haddr. reflexivity.
    + intros Haddr Hparent. apply Z.eqb_neq in Haddr. rewrite Haddr, Hparent.
      reflexivity.
    + intros Haddr Hparent Hcode. apply Z.eqb_neq in Haddr. rewrite Haddr.
      cbn [negb].
      destruct (GetHeader _ _ _) as [parent|]; [| contradiction].
      assert (Hnocode : (0 <? GetCodeSize blockst (Coinbase header)) = false)
        by (apply Z.ltb_ge; exact Hcode).
      rewrite Hnocode. reflexivity.
Qed.

End SealSoundness.

Lemma VerifySeal_accepts_only_witness :
  @VerifySeal _ demo_plain_collab (@New demo_params) demo_chain_4
    demo_block_5_signed = None
  /\ length (Signature demo_block_5_signed) = 65%nat.
Proof.
  assert (Hacc : @VerifySeal _ demo_plain_collab (@New demo_params) demo_chain_4
                   demo_block_5_signed = None) by (vm_compute; reflexivity).
  split; [exact Hacc |].
  destruct (@VerifySeal_accepts_only _ demo_plain_collab (@New demo_params)
              demo_chain_4 demo_block_5_signed Hacc)
    as (blockst & pubkey & _ & _ & Hlen & _).
  exact Hlen.
Defined.

Lemma VerifySeal_recovered_witness :
  @VerifySeal _ demo_plain_collab (@New demo_params) demo_chain_4
    demo_block_5_signed = None
  /\ @VerifySeal _ demo_plain_collab (@New demo_params) demo_chain_4
       demo_block_5_foreign = Some errInvalidSig.
Proof.
  split.
  - destruct (@VerifySeal_recovered _ demo_plain_collab (@New demo_params)
                demo_chain_4 demo_block_5_signed demo_empty_state
                eq_refl eq_refl eq_refl eq_refl) as [_ Hrec].
    destruct (Hrec _ eq_refl) as (Hdirect & _).
    apply Hdirect. vm_compute. reflexivity.
  - destruct (@VerifySeal_recovered _ demo_plain_collab (@New demo_params)
                demo_chain_4 demo_block_5_foreign demo_empty_state
                eq_refl eq_refl eq_refl eq_refl) as [_ Hrec].
    destruct (Hrec _ eq_refl) as (_ & _ & Hnocode).
    apply Hnocode; vm_compute; discriminate.
Defined.

(** ** Finalisation: splitting, short circuit, frames *)

Lemma splitConsensus_rebuild (pre ctxs : list Transaction) (k : nat) :
  Forall (fun t => IsConsensus t = true) ctxs ->
  (forall t, last pre = Some t -> IsConsensus t = false) ->
  (k <= length ctxs)%nat ->
  ((length pre + k)%nat = 0%nat -> ctxs = []) ->
  splitConsensus (pre ++ ctxs) (length pre + k) = (pre, drop 0 ctxs).
Proof.
  intros Hcons Hlast. induction k as [|k IH]; intros Hk Hzero.
  - rewrite Nat.add_0_r, drop_0.
    destruct pre as [|x pre'] using rev_ind.
    + cbn. rewrite (Hzero eq_refl). reflexivity.
    + clear IHpre'. rewrite length_app. cbn [length].
      replace (length pre' + 1)%nat with (S (length pre')) by lia.
      cbn [splitConsensus].
      assert (Hx : ((pre' ++ [x]) ++ ctxs) !! length pre' = Some x).
      { rewrite <- app_assoc. apply list_lookup_middle. reflexivity. }
      rewrite Hx.
      rewrite (Hlast x) by (rewrite last_snoc; reflexivity). cbn [negb].
      replace (S (length pre')) with (length (pre' ++ [x]))
        by (rewrite length_app; cbn; lia).
      rewrite take_app_length, drop_app_length. reflexivity.
  - replace (length pre + S k)%nat with (S (length pre + k)) by lia.
    cbn [splitConsensus].
    destruct (ctxs !! k) as [c|] eqn:Hc;
      [| apply lookup_ge_None in Hc; lia].
    assert (Hlook : (pre ++ ctxs) !! (length pre + k)%nat = Some c)
      by (rewrite lookup_app_r by lia;
          replace (length pre + k - length pre)%nat with k by lia; exact Hc).
    rewrite Hlook.
    assert (Hcc : IsConsensus c = true).
    { rewrite Forall_forall in Hcons. apply Hcons.
      apply list_elem_of_lookup. eauto. }
    rewrite Hcc. cbn [negb].
    destruct (length pre + k)%nat as [|m] eqn:Hm.
    + assert (pre = []) by (destruct pre; [reflexivity | cbn in Hm; lia]).
      subst pre. rewrite take_0, drop_0. reflexivity.
    + apply IH; [lia | discriminate].
Qed.

Section FinaliseMore.
Context `{Params} `{Collaborators}.

(** X13. Splitting is the inverse of appending: for a prefix that is empty
    or ends in an ordinary transaction, followed by consensus transactions
    only, the tail scan of [Finalize] gives back exactly that prefix and that
    list.  In particular a list of consensus transactions only has the empty
    prefix, and a list ending in an ordinary transaction has no expected
    consensus transaction. *)
Theorem splitConsensus_roundtrip (pre ctxs : list Transaction) :
  Forall (fun t => IsConsensus t = true) ctxs ->
  (forall t, last pre = Some t -> IsConsensus t = false) ->
  splitConsensus (pre ++ ctxs) (length (pre ++ ctxs)) = (pre, ctxs).
Proof.
  intros Hcons Hlast. rewrite length_app.
  rewrite (splitConsensus_rebuild pre ctxs (length ctxs) Hcons Hlast).
  - rewrite drop_0. reflexivity.
  - lia.
  - intros Hz. destruct ctxs; [reflexivity | cbn in Hz; lia].
Qed.

(** X14. For a header without coinbase, [Finalize] derives no consensus
    transaction: it succeeds, with the block of the given transactions, when
    the list does not end in a consensus transaction, and returns
    [ErrInvalidConsensusTx] whenever it does. *)
Theorem Finalize_zero_coinbase (e : Nuclear) (chain : ChainReader) (header : Header)
    (state : option StateDB) (txs : list Transaction) (uncles : list Header)
    (receipts : list Receipt) (pre ctxs : list Transaction) :
  Coinbase header = 0 ->
  splitConsensus txs (length txs) = (pre, ctxs) ->
  let header' := withUncleHash uncleHash header in
  let r := {| f_block := Some (NewBlock header' pre [] receipts);
              f_receipts := receipts; f_err := None; f_engine := e;
              f_header := header'; f_state := state |} in
  (ctxs = [] ->
   txs = pre /\ Finalize e chain header state txs uncles receipts = Done r)
  /\ (ctxs <> [] ->
      Finalize e chain header state txs uncles receipts
      = Done (rejected r ErrInvalidConsensusTx)).
Proof.
  intros Hcb Hsplit header' r.
  assert (Hfin : finalize e chain header state pre receipts = Done r).
  { unfold finalize. rewrite Hcb. reflexivity. }
  unfold Finalize. rewrite Hsplit, Hfin. cbn [f_err f_block r NewBlock Transactions].
  rewrite Nat.ltb_irrefl, drop_all. split.
  - intros ->. split; [| reflexivity].
    destruct (splitConsensus_maximal _ _ _ Hsplit) as [Htxs _].
    rewrite app_nil_r in Htxs. exact Htxs.
  - intros Hne. destruct ctxs as [|c ctxs]; [contradiction | reflexivity].
Qed.

(** X15. When the gas-limit read fails, [govFinalize] runs none of the later
    steps: the transactions, the receipts and the engine come back as given,
    the error is that of the read, and the header's state root is still
    refreshed from the state the read left. *)
Theorem govFinalize_short_circuit (e : Nuclear) (chain : ChainReader)
    (header : Header) (state : StateDB) (txs : list Transaction)
    (receipts : list Receipt) (err : error) (e1 : Nuclear) (st1 : StateDB) :
  processConsensusGasLimits e chain header state = (Some err, e1, st1) ->
  govFinalize e chain header state txs receipts
  = (txs, receipts, Some err, e,
     withRoot (IntermediateRoot (IsEIP158 chain (Number header)) st1).1 header,
     (IntermediateRoot (IsEIP158 chain (Number header)) st1).2).
Proof.
  intros Hgas.
  assert (He1 : e1 = e).
  { revert Hgas. unfold processConsensusGasLimits.
    destruct (Pack _ _) as [callData|perr]; [| intros [= _ <- _]; reflexivity].
    destruct (Snapshot state) as [rev_id s1].
    destruct (ApplyMessage _ _ _ s1) as [res s2].
    destruct (ar_err res); [intros [= _ <- _]; reflexivity |].
    destruct (UnpackGasLimits _ _ _) as [[cg xg]|uerr];
      [discriminate | intros [= _ <- _]; reflexivity]. }
  subst e1. unfold govFinalize. rewrite Hgas.
  destruct (IntermediateRoot _ st1) as [root st']. reflexivity.
Qed.

(** X16. [processConsensusGasLimits] touches nothing of the engine but the
    two gas limits, and those only when the call and the unpacking succeed;
    they are then the low 64 bits of the two unpacked integers, so a registry
    answer beyond 2^64 is truncated, not rejected. *)
Theorem processConsensusGasLimits_engine (e : Nuclear) (chain : ChainReader)
    (header : Header) (state : StateDB) (err : option error) (e' : Nuclear)
    (st' : StateDB) :
  processConsensusGasLimits e chain header state = (err, e', st') ->
  e' = withGas (callGas e') (xferGas e') e
  /\ (err <> None -> e' = e)
  /\ (err = None ->
      exists (res : ApplyResult) (CallGas XferGas : Z),
        ar_err res = None
        /\ UnpackGasLimits (sporkAbi e) "consensusGasLimits" (ar_output res)
           = inl (CallGas, XferGas)
        /\ callGas e' = Z.abs CallGas mod 2 ^ 64
        /\ xferGas e' = Z.abs XferGas mod 2 ^ 64).
Proof.
  assert (Heta : e = withGas (callGas e) (xferGas e) e) by (destruct e; reflexivity).
  unfold processConsensusGasLimits.
  destruct (Pack _ _) as [callData|perr].
  - destruct (Snapshot state) as [rev_id s1].
    destruct (ApplyMessage _ _ _ s1) as [res s2].
    destruct (ar_err res) eqn:Herr.
    + intros [= <- <- _]. split; [exact Heta |]. split; [reflexivity | discriminate].
    + destruct (UnpackGasLimits _ _ _) as [[cg xg]|uerr] eqn:Hunpack.
      * intros [= <- <- _]. split; [reflexivity |].
        split; [intros Habs; contradiction |]. intros _.
        exists res, cg, xg. repeat split; assumption || reflexivity.
      * intros [= <- <- _]. split; [exact Heta |].
        split; [reflexivity | discriminate].
  - intros [= <- <- _]. split; [exact Heta |]. split; [reflexivity | discriminate].
Qed.

(** X17. The masternode loop stores the value under every enumerated
    address, in order, and the set it hands to [CleanupStorage] is exactly
    the set of enumerated addresses (added to the initial set): duplicates in
    the enumeration collapse, and an empty enumeration keeps nothing. *)
Theorem storeMasternodes_keep (masternodes : list Address) (value : Hash)
    (keep : gset Hash) (statedb : StateDB) :
  (storeMasternodes masternodes value keep statedb).1
  = keep ∪ list_to_set masternodes
  /\ (storeMasternodes masternodes value keep statedb).2
     = fold_left (fun st addr => SetState Nuclear_MasternodeList addr value st)
         masternodes statedb.
Proof.
  revert keep statedb. induction masternodes as [|addr rest IH];
    intros keep statedb; cbn [storeMasternodes fold_left list_to_set]; cbv zeta.
  - split; [cbn [fst]; set_solver | reflexivity].
  - destruct (IH ({[addr]} ∪ keep)
                (SetState Nuclear_MasternodeList addr value statedb))
      as [Hkeep Hst].
    split; [| exact Hst].
    etransitivity; [exact Hkeep |]. set_solver.
Qed.

(** The header as [finalize] leaves it. *)
Lemma finalize_header_shape (e : Nuclear) (chain : ChainReader) (header : Header)
    (state : option StateDB) (txs : list Transaction) (receipts : list Receipt)
    (r : Finalized) :
  finalize e chain header state txs receipts = Done r ->
  f_header r = withUncleHash uncleHash (withRoot (Root (f_header r)) header)
  /\ exists txs' receipts',
       f_block r = Some (NewBlock (f_header r) txs' [] receipts')
       /\ f_receipts r = receipts'.
Proof.
  unfold finalize. destruct (negb (Coinbase header =? 0)).
  - destruct state as [st|]; [| discriminate].
    unfold govFinalize.
    destruct (processConsensusGasLimits _ _ _ _) as [[err1 e1] st1].
    destruct (match err1 with None => _ | Some _ => _ end) as [[[txs2 rs2] err2] st2].
    destruct (match err2 with None => _ | Some _ => _ end) as [err3 st3].
    destruct (match err3 with None => _ | Some _ => _ end) as [err4 st4].
    destruct (match err4 with None => _ | Some _ => _ end) as [[[txs5 rs5] err5] st5].
    destruct (match err5 with None => _ | Some _ => _ end) as [err6 st6].
    destruct (IntermediateRoot _ st6) as [root st7].
    intros [= <-]. cbn. split; [destruct header; reflexivity |].
    exists txs5, rs5. split; reflexivity.
  - intros [= <-]. cbn. split; [destruct header; reflexivity |].
    exists txs, receipts. split; reflexivity.
Qed.

(** X18. Of the header handed to it, [finalize] changes the state root and
    the uncle hash and nothing else; the uncle hash is always set to the
    empty-list hash, also when a governance step fails. *)
Theorem finalize_header_frame (e : Nuclear) (chain : ChainReader) (header : Header)
    (state : option StateDB) (txs : list Transaction) (receipts : list Receipt)
    (r : Finalized) :
  finalize e chain header state txs receipts = Done r ->
  f_header r = withUncleHash uncleHash (withRoot (Root (f_header r)) header)
  /\ UncleHash (f_header r) = uncleHash
  /\ Coinbase (f_header r) = Coinbase header
  /\ GasUsed (f_header r) = GasUsed header
  /\ Time (f_header r) = Time header.
Proof.
  intros Hfin.
  destruct (finalize_header_shape _ _ _ _ _ _ _ Hfin) as [Hshape _].
  split; [exact Hshape |]. rewrite Hshape. repeat split; reflexivity.
Qed.

(** X19. A block comes out of [finalize] and [Finalize] without uncles, so
    it passes [VerifyUncles], which accepts a block exactly when its uncle
    list is empty. *)
Theorem finalized_block_has_no_uncles (e : Nuclear) (chain : ChainReader)
    (header : Header) (state : option StateDB) (txs : list Transaction)
    (uncles : list Header) (receipts : list Receipt) :
  (forall b, VerifyUncles b = None <-> Uncles b = [])
  /\ (forall r b,
        finalize e chain header state txs receipts = Done r ->
        f_block r = Some b -> VerifyUncles b = None)
  /\ (forall r b,
        Finalize e chain header state txs uncles receipts = Done r ->
        f_block r = Some b -> VerifyUncles b = None).
Proof.
  assert (Hfin : forall txs0 r b,
            finalize e chain header state txs0 receipts = Done r ->
            f_block r = Some b -> VerifyUncles b = None).
  { intros txs0 r b Hr Hb.
    destruct (finalize_header_shape _ _ _ _ _ _ _ Hr) as (_ & t & rs & Hblock & _).
    rewrite Hblock in Hb. injection Hb as <-. reflexivity. }
  split; [| split].
  - intros b. unfold VerifyUncles. destruct (Uncles b); cbn; split;
      intros Hx; first [reflexivity | discriminate].
  - intros r b. apply Hfin.
  - intros r b. unfold Finalize.
    destruct (splitConsensus txs (length txs)) as [pre ctxs].
    destruct (finalize e chain header state pre receipts) as [r0|] eqn:Hr0;
      [| discriminate].
    destruct (f_err r0); [intros [= <-]; discriminate |].
    destruct (_ <? _)%nat; [discriminate |].
    destruct (negb _); [intros [= <-]; discriminate |].
    destruct (hashMismatch _ _); [intros [= <-]; discriminate |].
    intros [= <-]. apply (Hfin pre r0 b Hr0).
Qed.




End FinaliseMore.

Lemma splitConsensus_roundtrip_witness :
  splitConsensus [demo_user_tx; demo_reward_tx; demo_forged_tx] 3
  = ([demo_user_tx], [demo_reward_tx; demo_forged_tx]).
Proof.
  apply (splitConsensus_roundtrip [demo_user_tx] [demo_reward_tx; demo_forged_tx]).
  - repeat constructor.
  - intros t [= <-]. reflexivity.
Defined.

(** Without coinbase even the reward transaction that finalisation would
    derive for a proposer is refused. *)
Lemma Finalize_zero_coinbase_witness :
  Coinbase demo_mining = 0
  /\ (exists r,
        @Finalize _ demo_rewarding_collab (@New demo_params) demo_rewarding_chain
          demo_mining (Some demo_empty_state) [demo_user_tx; demo_reward_tx] [] []
        = Done r /\ f_err r = Some ErrInvalidConsensusTx)
  /\ (exists r,
        @Finalize _ demo_rewarding_collab (@New demo_params) demo_rewarding_chain
          demo_mining (Some demo_empty_state) [demo_user_tx] [] []
        = Done r /\ f_err r = None).
Proof.
  split; [reflexivity |]. split.
  - destruct (@Finalize_zero_coinbase _ demo_rewarding_collab (@New demo_params)
                demo_rewarding_chain demo_mining (Some demo_empty_state)
                [demo_user_tx; demo_reward_tx] [] [] [demo_user_tx] [demo_reward_tx]
                eq_refl eq_refl) as [_ Hrej].
    eexists. split; [apply Hrej; discriminate | reflexivity].
  - destruct (@Finalize_zero_coinbase _ demo_rewarding_collab (@New demo_params)
                demo_rewarding_chain demo_mining (Some demo_empty_state)
                [demo_user_tx] [] [] [demo_user_tx] [] eq_refl eq_refl)
      as [Hok _].
    eexists. split; [apply Hok; reflexivity | reflexivity].
Defined.

(** In the world whose spork registry call fails, the user transaction comes
    back alone although a proposer is set. *)
Lemma govFinalize_short_circuit_witness :
  exists header' st',
    @govFinalize _ demo_failing_collab (@New demo_params) demo_failing_chain
      demo_validator demo_governed_state [demo_user_tx] []
    = ([demo_user_tx], [], Some (ErrExternal 5), @New demo_params, header', st').
Proof.
  destruct (@processConsensusGasLimits _ demo_failing_collab (@New demo_params)
              demo_failing_chain demo_validator demo_governed_state)
    as [[[err|] e1] st1] eqn:Hgas; [| vm_compute in Hgas; discriminate].
  assert (Herr : err = ErrExternal 5)
    by (vm_compute in Hgas; injection Hgas as <- _ _; reflexivity).
  subst err.
  eexists. eexists.
  exact (@govFinalize_short_circuit _ demo_failing_collab (@New demo_params)
           demo_failing_chain demo_validator demo_governed_state
           [demo_user_tx] [] _ _ _ Hgas).
Defined.

(** The registry answers call gas 2^64 + 5: the engine ends up with 5. *)
Lemma processConsensusGasLimits_engine_witness :
  let r := @processConsensusGasLimits _ demo_wide_collab (@New demo_params)
             demo_wide_chain demo_validator demo_governed_state in
  r.1.1 = None /\ callGas r.1.2 = 5 /\ xferGas r.1.2 = 7
  /\ r.1.2 = withGas 5 7 (@New demo_params).
Proof.
  cbv zeta.
  destruct (@processConsensusGasLimits _ demo_wide_collab (@New demo_params)
              demo_wide_chain demo_validator demo_governed_state)
    as [[err e'] st'] eqn:Hres.
  destruct (@processConsensusGasLimits_engine _ demo_wide_collab _ _ _ _ _ _ _ Hres)
    as (Hshape & _ & _).
  assert (Hvals : err = None /\ callGas e' = 5 /\ xferGas e' = 7).
  { vm_compute in Hres. injection Hres as <- <- _. repeat split. }
  destruct Hvals as (Herr & Hcall & Hxfer).
  cbn [fst snd]. split; [exact Herr |]. split; [exact Hcall |].
  split; [exact Hxfer |]. rewrite Hshape, Hcall, Hxfer. reflexivity.
Defined.

Lemma finalize_header_frame_witness :
  @finalize _ demo_rewarding_collab (@New demo_params) demo_rewarding_chain
    demo_validator (Some demo_governed_state) [demo_user_tx] [] = Done demo_finalized
  /\ Coinbase (f_header demo_finalized) = 0xAA
  /\ UncleHash (f_header demo_finalized) = 0x1dcc4de8.
Proof.
  assert (Hfin : @finalize _ demo_rewarding_collab (@New demo_params)
                   demo_rewarding_chain demo_validator (Some demo_governed_state)
                   [demo_user_tx] [] = Done demo_finalized)
    by (vm_compute; reflexivity).
  split; [exact Hfin |].
  destruct (@finalize_header_frame _ demo_rewarding_collab _ _ _ _ _ _ _ Hfin)
    as (_ & Huncle & Hcb & _).
  split; [exact Hcb | exact Huncle].
Defined.

Lemma finalized_block_has_no_uncles_witness :
  exists b, f_block demo_finalized = Some b /\ VerifyUncles b = None.
Proof.
  assert (Hfin : @finalize _ demo_rewarding_collab (@New demo_params)
                   demo_rewarding_chain demo_validator (Some demo_governed_state)
                   [demo_user_tx] [] = Done demo_finalized)
    by (vm_compute; reflexivity).
  destruct (@finalized_block_has_no_uncles _ demo_rewarding_collab
              (@New demo_params) demo_rewarding_chain demo_validator
              (Some demo_governed_state) [demo_user_tx] [] [])
    as (_ & Hblock & _).
  eexists. split; [reflexivity |].
  exact (Hblock demo_finalized _ Hfin eq_refl).
Defined.


(** ** Preparing and sealing *)

Lemma lru_Add_find (k v : Hash) (c : list (Hash * Hash)) :
  lru_find k (lru_Add k v c) = Some v.
Proof.
  unfold lru_Add. destruct (lru_find k c); cbn; rewrite Z.eqb_refl; reflexivity.
Qed.

Ltac outcome_case H :=
  match goal with
  | |- (match ?m with Done _ => _ | Panic => _ end) = _ -> _ => destruct m eqn:H
  end.

Section MiningFacts.
Context `{Params} `{Mining}.

(** X21. [Prepare] on a header whose parent is unknown returns
    [ErrUnknownAncestor] and leaves the header as it is.  With a known parent
    it clears coinbase and nonce, takes the time that [enforceTime] yields,
    and sets [MixDigest] and [Difficulty] to the modifier and the difficulty
    computed for that time, also when [enforceTime] reports an error, which
    is then the result; parent hash, number and gas limit are kept. *)
Theorem Prepare_header (e : Nuclear) (chain : ChainReader) (header : Header) :
  (GetHeader chain (ParentHash header) (wrap64 (big_Uint64 (Number header) - 1))
   = None ->
   Engine.Prepare e chain header = (Some ErrUnknownAncestor, header))
  /\ (forall parent,
        GetHeader chain (ParentHash header)
          (wrap64 (big_Uint64 (Number header) - 1)) = Some parent ->
        let clamp :=
          enforceTime e (withNonce 0 (withCoinbase 0 header))
            (calcTimeTarget e chain parent) in
        let prepared := (Engine.Prepare e chain header).2 in
        (Engine.Prepare e chain header).1 = clamp.2
        /\ Coinbase prepared = 0 /\ Nonce prepared = 0
        /\ Time prepared = clamp.1
        /\ MixDigest prepared = calcPoSModifier e chain (Time prepared) parent
        /\ Difficulty prepared = CalcDifficulty e chain (Time prepared) parent
        /\ ParentHash prepared = ParentHash header
        /\ Number prepared = Number header
        /\ GasLimit prepared = GasLimit header).
Proof.
  split.
  - intros Hparent. unfold Engine.Prepare. rewrite Hparent. reflexivity.
  - intros parent Hparent. unfold Engine.Prepare, posPrepare. rewrite Hparent.
    cbv zeta. destruct (enforceTime _ _ _) as [time err]. cbn.
    repeat split; reflexivity.
Qed.

(** X22. When the search fails or reports an error for a block with a
    non-zero number, the seal task offers the empty result to the channel and
    stops: nothing is rebuilt or signed (no signer is needed), and the
    engine, its txhash cache included, is as before. *)
Theorem Seal_mining_failure (e : Nuclear) (cb : MinerCB) (chain : ChainReader)
    (block : Block) (ready success : bool) (err : option error) (mined : Header) :
  Number (block_Header block) <> 0 ->
  mine e chain (block_Header block) = (success, err, mined) ->
  success = false \/ err <> None ->
  Seal e cb chain block ready
  = Done (if ready then Some (NewSealResult None None []) else None, e).
Proof.
  intros Hnum Hmine Hfail. unfold Seal. cbv zeta.
  apply Z.eqb_neq in Hnum. rewrite Hnum, Hmine. cbn [negb].
  destruct Hfail as [-> | Herr].
  - cbn [andb]. destruct (bool_decide (err <> None)); reflexivity.
  - rewrite (bool_decide_eq_false_2 (err = None)) by exact Herr.
    rewrite andb_false_r.
    rewrite (bool_decide_eq_true_2 (err <> None)) by exact Herr. reflexivity.
Qed.

(** X23. Whatever the seal task delivers with a block in it was signed: a
    signer is installed and returned the block's signature for the block's
    coinbase and the signature hash of the block's header.  The engine's
    cache then maps the block's transactions root to the root of the work
    item, so [SealHash] resolves the sealed header to the work item's root;
    the gas limits are those the rebuild left. *)
Theorem Seal_delivered (e : Nuclear) (cb : MinerCB) (chain : ChainReader)
    (block : Block) (sr : SealResult) (e' : Nuclear) (b : Block) :
  Seal e cb chain block true = Done (Some sr, e') ->
  sr_Block sr = Some b ->
  let sealed := block_Header b in
  (exists sign,
     signerFn cb = Some sign
     /\ sign (Coinbase sealed) (SignatureHash sealed) = inl (Signature sealed))
  /\ lru_find (TxHash sealed) (txhashMap e') = Some (TxHash (block_Header block))
  /\ sealTxHash e' sealed = TxHash (block_Header block)
  /\ (Number (block_Header block) = 0 ->
      b = WithSeal block (withSignature (Signature sealed) (block_Header block))
      /\ callGas e' = callGas e /\ xferGas e' = xferGas e).
Proof.
  unfold Seal. cbv zeta.
  outcome_case Hmined; [| discriminate].
  destruct a as [[[result header]|] e1]; [| intros [= <- _]; discriminate].
  destruct (signerFn cb) as [sign|]; [| discriminate].
  destruct (sign (Coinbase header) (SignatureHash header)) as [sig|serr] eqn:Hsig;
    [| discriminate].
  destruct (sr_Block result) as [b0|] eqn:Hb0; [| discriminate].
  intros [= <- <-]. cbn [sr_Block]. intros [= <-].
  cbn [WithSeal block_Header withSignature TxHash Coinbase Signature].
  split; [exists sign; split; [reflexivity | exact Hsig] |].
  split; [cbn [txhashMap withTxhashMap]; apply lru_Add_find |].
  split.
  - unfold sealTxHash. cbn [txhashMap withTxhashMap TxHash].
    rewrite lru_Add_find. reflexivity.
  - intros Hzero. apply Z.eqb_eq in Hzero. rewrite Hzero in Hmined.
    cbn [negb] in Hmined. injection Hmined as <- <- <-.
    cbn [sr_Block] in Hb0. injection Hb0 as <-.
    repeat split; reflexivity.
Qed.


End MiningFacts.

Lemma Prepare_header_witness :
  (@Engine.Prepare _ demo_rewarding_collab demo_mining_ok (@New demo_params)
     demo_rewarding_chain_state demo_validator).1 = Some ErrUnknownAncestor
  /\ Coinbase
       (@Engine.Prepare _ demo_plain_collab
          (@Build_Mining _ demo_plain_collab (fun _ h tt => demo_clamp h tt)
             (fun _ _ h => (false, None, h)))
          (@New demo_params) demo_chain_4 demo_block_5_signed).2 = 0.
Proof.
  split.
  - destruct (@Prepare_header _ demo_rewarding_collab demo_mining_ok
                (@New demo_params) demo_rewarding_chain_state demo_validator)
      as [Hmissing _].
    rewrite Hmissing by reflexivity. reflexivity.
  - destruct (@Prepare_header _ demo_plain_collab
                (@Build_Mining _ demo_plain_collab (fun _ h tt => demo_clamp h tt)
                   (fun _ _ h => (false, None, h)))
                (@New demo_params) demo_chain_4 demo_block_5_signed)
      as [_ Hknown].
    exact (proj1 (proj2 (Hknown demo_block_4 eq_refl))).
Defined.

Lemma Seal_mining_failure_witness :
  @Seal _ demo_rewarding_collab demo_mining_fail (@New demo_params) NewCB
    demo_rewarding_chain_state demo_work true
  = Done (Some (NewSealResult None None []), @New demo_params).
Proof.
  apply (@Seal_mining_failure _ demo_rewarding_collab demo_mining_fail
           (@New demo_params) NewCB demo_rewarding_chain_state demo_work true
           false None demo_work_header);
    [discriminate | reflexivity | left; reflexivity].
Defined.

(** The miner's work item is sealed by 0xAA; its new transactions root
    resolves back to the root of the work item. *)
Lemma Seal_delivered_witness :
  @Seal _ demo_rewarding_collab demo_mining_ok (@New demo_params) demo_callbacks
    demo_rewarding_chain_state demo_work true
  = Done demo_seal_outcome
  /\ exists sr b,
       demo_seal_outcome.1 = Some sr /\ sr_Block sr = Some b
       /\ Coinbase (block_Header b) = 0xAA
       /\ sealTxHash demo_seal_outcome.2 (block_Header b) = TxHash demo_work_header.
Proof.
  assert (Hseal : @Seal _ demo_rewarding_collab demo_mining_ok (@New demo_params)
                    demo_callbacks demo_rewarding_chain_state demo_work true
                  = Done demo_seal_outcome)
    by (vm_compute; reflexivity).
  split; [exact Hseal |].
  eexists. eexists. split; [reflexivity |]. split; [reflexivity |].
  split; [reflexivity |].
  exact (proj1 (proj2 (proj2
    (@Seal_delivered _ demo_rewarding_collab demo_mining_ok (@New demo_params)
       demo_callbacks demo_rewarding_chain_state demo_work _ _ _ Hseal eq_refl)))).
Defined.


(** ** Nonce cap, consensus signer, results of [Finalize] *)

Section Misc.
Context `{Params} `{Collaborators}.

(** X25. The nonce cap read back is the one last set, and the DoS guard
    neither reads nor changes it: setting the cap before or after a
    [checkDoS] call gives the same verdict and the same engine. *)
Theorem nonce_cap_frame (e : Nuclear) (cap : Z) (chain : ChainReader)
    (header parent : Header) (now : nat -> Z) :
  GetMinerNonceCap (SetMinerNonceCap e cap) = cap
  /\ GetMinerNonceCap (checkDoS e chain header parent now).2 = GetMinerNonceCap e
  /\ checkDoS (SetMinerNonceCap e cap) chain header parent now
     = ((checkDoS e chain header parent now).1,
        SetMinerNonceCap (checkDoS e chain header parent now).2 cap).
Proof.
  split; [reflexivity |].
  unfold checkDoS, SetMinerNonceCap, GetMinerNonceCap. cbv zeta.
  cbn [knownStakes nextKSPurge withNonceCap].
  destruct (_ && _); [split; reflexivity |].
  destruct (LoadOrStore _ _ _) as [[prev ok] stakes].
  destruct (ok && _); [split; reflexivity |].
  cbn [knownStakes nextKSPurge withNonceCap withKnownStakes].
  destruct (nextKSPurge e <? now 1%nat); split; reflexivity.
Qed.

(** X26. The consensus signer yields a sender exactly for consensus
    transactions, so it resolves every transaction that [Finalize] splits off
    as expected consensus transaction, and refuses the last transaction of
    the remaining prefix; it never produces signature values. *)
Theorem ConsensusSigner_Sender_split (ConsensusSender : Transaction -> Address)
    (txs pre ctxs : list Transaction) :
  (forall tx, (ConsensusSigner.Sender ConsensusSender tx).2 = None
              <-> IsConsensus tx = true)
  /\ (forall tx sig, ConsensusSigner.SignatureValues tx sig
                     = (None, Some errNotSupported))
  /\ (splitConsensus txs (length txs) = (pre, ctxs) ->
      Forall (fun tx => ConsensusSigner.Sender ConsensusSender tx
                        = (ConsensusSender tx, None)) ctxs
      /\ forall tx, last pre = Some tx ->
                    ConsensusSigner.Sender ConsensusSender tx
                    = (0, Some errNotConsensusTx)).
Proof.
  split; [| split; [reflexivity |]].
  - intros tx. unfold ConsensusSigner.Sender.
    destruct (IsConsensus tx); cbn; split; intros Hx;
      first [reflexivity | discriminate].
  - intros Hsplit.
    destruct (splitConsensus_maximal _ _ _ Hsplit) as (_ & Hcons & Hlast).
    split.
    + eapply Forall_impl; [exact Hcons |]. intros tx Htx.
      unfold ConsensusSigner.Sender. rewrite Htx. reflexivity.
    + intros tx Htx. unfold ConsensusSigner.Sender.
      rewrite (Hlast tx Htx). reflexivity.
Qed.

(** X27. [Finalize] never hands back a block together with an error: a
    result with an error has no block and no receipts, and a result without
    error has the block; the inner [finalize] by contrast always builds a
    block, also when a governance step failed. *)
Theorem Finalize_block_xor_error (e : Nuclear) (chain : ChainReader)
    (header : Header) (state : option StateDB) (txs : list Transaction)
    (uncles : list Header) (receipts : list Receipt) :
  (forall out,
     Finalize e chain header state txs uncles receipts = Done out ->
     (f_err out <> None -> f_block out = None /\ f_receipts out = [])
     /\ (f_err out = None -> f_block out <> None))
  /\ (forall r,
        finalize e chain header state txs receipts = Done r ->
        f_block r <> None).
Proof.
  assert (Hfin : forall txs0 r,
            finalize e chain header state txs0 receipts = Done r ->
            f_block r <> None).
  { intros txs0 r Hr.
    destruct (finalize_header_shape _ _ _ _ _ _ _ Hr) as (_ & t & rs & Hb & _).
    rewrite Hb. discriminate. }
  split; [| apply Hfin].
  intros out. unfold Finalize.
  destruct (splitConsensus txs (length txs)) as [pre ctxs].
  destruct (finalize e chain header state pre receipts) as [r|] eqn:Hr;
    [| discriminate].
  destruct (f_err r) eqn:Herr;
    [intros [= <-]; cbn; split; [split; reflexivity | discriminate] |].
  destruct (_ <? _)%nat; [discriminate |].
  destruct (negb _);
    [intros [= <-]; cbn; split; [split; reflexivity | discriminate] |].
  destruct (hashMismatch _ _);
    [intros [= <-]; cbn; split; [split; reflexivity | discriminate] |].
  intros [= <-]. split; [rewrite Herr; intros Habs; contradiction |].
  intros _. apply (Hfin pre r Hr).
Qed.

End Misc.

Lemma ConsensusSigner_Sender_split_witness :
  ConsensusSigner.Sender (fun _ => Nuclear_SystemFaucet) demo_reward_tx
  = (Nuclear_SystemFaucet, None)
  /\ ConsensusSigner.Sender (fun _ => Nuclear_SystemFaucet) demo_user_tx
     = (0, Some errNotConsensusTx).
Proof.
  destruct (ConsensusSigner_Sender_split (fun _ => Nuclear_SystemFaucet)
              [demo_user_tx; demo_reward_tx] [demo_user_tx] [demo_reward_tx])
    as (_ & _ & Hsplit).
  destruct (Hsplit eq_refl) as [Hctxs Hpre].
  split.
  - apply Forall_inv in Hctxs. exact Hctxs.
  - apply Hpre. reflexivity.
Defined.

(** The forged consensus transaction is refused: an error and no block. *)
Lemma Finalize_block_xor_error_witness :
  @Finalize _ demo_rewarding_collab (@New demo_params) demo_rewarding_chain
    demo_validator (Some demo_governed_state)
    [demo_user_tx; demo_forged_tx] [] []
  = Done (rejected demo_finalized ErrInvalidConsensusTx)
  /\ f_block (rejected demo_finalized ErrInvalidConsensusTx) = None.
Proof.
  assert (Hrej : @Finalize _ demo_rewarding_collab (@New demo_params)
                   demo_rewarding_chain demo_validator (Some demo_governed_state)
                   [demo_user_tx; demo_forged_tx] [] []
                 = Done (rejected demo_finalized ErrInvalidConsensusTx))
    by (vm_compute; reflexivity).
  split; [exact Hrej |].
  destruct (@Finalize_block_xor_error _ demo_rewarding_collab (@New demo_params)
              demo_rewarding_chain demo_validator (Some demo_governed_state)
              [demo_user_tx; demo_forged_tx] [] []) as [Hout _].
  destruct (Hout _ Hrej) as [Herr _].
  apply Herr. discriminate.
Defined.

End Nuclear.
